(** * Hive monitor: telemetry buffering and tiered transmission

    A shallow embedding of [hardware/hive_monitor_v1.py] (class [HiveMonitor]):
    the snapshot of the sensors, the reduced LoRaWAN encoding, the tiered
    transmission (LoRaWAN, then HTTP, then the local day file) and the
    monitoring loop, with the properties of the telemetry pipeline proved
    about them.

    Python's effects are explicit: a method is a computation over the state
    of the monitor object and of the outside world, which either returns a
    value or raises an exception.  What the outside world answers (the radio,
    the HTTP endpoint, the file system, the sensors, the clock) is a
    parameter of the model, so every theorem holds for every such answer. *)

From Stdlib Require Import ZArith Floats Ascii String List Lia.
From stdpp Require Import base option list strings gmap pretty.

Open Scope string_scope.
Open Scope Z_scope.

(* ===================================================================== *)
(** * Python values, dictionaries and exceptions *)
(* ===================================================================== *)

(** The values a reading holds: [None], an [int], a [float], a [str]. *)
Inductive value :=
| VNone
| VInt (z : Z)
| VFloat (f : float)
| VStr (s : string).

(** A Python [dict] with string keys, in insertion order. *)
Definition Dict := list (string * value).

(** [d.get(k)]: the value bound to the first occurrence of the key. *)
Fixpoint dict_get (d : Dict) (k : string) : option value :=
  match d with
  | [] => None
  | (k', v) :: rest => if decide (k' = k) then Some v else dict_get rest k
  end.

(** [d.get(k, dflt)]. *)
Definition dict_get_default (d : Dict) (k : string) (dflt : value) : value :=
  default dflt (dict_get d k).

(** [d[k] = v]: the binding is replaced where it stands, or appended. *)
Fixpoint dict_set (d : Dict) (k : string) (v : value) : Dict :=
  match d with
  | [] => [(k, v)]
  | (k', v') :: rest =>
      if decide (k' = k) then (k', v) :: rest else (k', v') :: dict_set rest k v
  end.

(** [d.update(other)]. *)
Definition dict_update (d other : Dict) : Dict :=
  fold_left (fun acc kv => dict_set acc kv.1 kv.2) other d.

Definition dict_keys (d : Dict) : list string := d.*1.

(** Python's [==] on two dicts whose values compare structurally: the same
    bindings, whatever the insertion order. *)
Definition dict_equal (d1 d2 : Dict) : Prop :=
  ∀ k, dict_get d1 k = dict_get d2 k.

(** A raised [Exception]: its class and what [str(e)] gives. *)
Record exn := Exception { exn_class : string; exn_str : string }.

Definition squote : string := String "039"%char EmptyString.
Definition newline : string := String "010"%char EmptyString.

Definition KeyError (key : string) : exn :=
  Exception "KeyError" (squote ++ key ++ squote).
Definition AttributeError (msg : string) : exn :=
  Exception "AttributeError" msg.

(** The result of a call: a value, or a raised exception. *)
Inductive pyresult (A : Type) :=
| Ok (a : A)
| Raise (e : exn).
Arguments Ok {A} a.
Arguments Raise {A} e.

(* ===================================================================== *)
(** * The Python runtime library *)
(* ===================================================================== *)

(** Pure functions of the runtime that the monitor calls and whose text
    output is not modelled here: how [json.dumps] prints a [float] and a
    [str], and how a [datetime] is printed.  A [datetime] is the number of
    microseconds since the epoch. *)
Class PyLib := {
  float_repr : float → string;
  json_quote : string → string;
  isoformat : Z → string;
  strftime_Ymd : Z → string
}.

Section Monitor.
Context {L : PyLib}.

(* ===================================================================== *)
(** * The payload codec *)
(* ===================================================================== *)

(** [json.dumps] of one value of a reading. *)
Definition json_dumps_value (v : value) : string :=
  match v with
  | VNone => "null"
  | VInt z => pretty z
  | VFloat f => float_repr f
  | VStr s => json_quote s
  end.

Definition json_item (kv : string * value) : string :=
  json_quote kv.1 ++ ": " ++ json_dumps_value kv.2.

Fixpoint json_items (d : Dict) : string :=
  match d with
  | [] => EmptyString
  | [kv] => json_item kv
  | kv :: rest => json_item kv ++ ", " ++ json_items rest
  end.

(** [json.dumps(d)] with the default separators; the keys come in insertion
    order. *)
Definition json_dumps (d : Dict) : string := "{" ++ json_items d ++ "}".

(** [str.encode()]: the text [json.dumps] returns is ASCII, so the bytes are
    its characters. *)
Definition encode (s : string) : string := s.

(** The dictionary [essential_data] of [compress_sensor_data]. *)
Definition essential_data (data : Dict) : Dict :=
  [ ("t", dict_get_default data "temperature_c" (VInt 0));
    ("h", dict_get_default data "humidity_percent" (VInt 0));
    ("w", dict_get_default data "weight_kg" (VInt 0));
    ("b", dict_get_default data "bee_count" (VInt 0)) ].

(** [HiveMonitor.compress_sensor_data]. *)
Definition compress_sensor_data (data : Dict) : string :=
  encode (json_dumps (essential_data data)).

(* ===================================================================== *)
(** * Configuration and the monitor object *)
(* ===================================================================== *)

(** [config["transmission"]]: [None] is a key that is not there (the lookup
    raises [KeyError]); a flag is the truth value of what is stored. *)
Record TransmissionConfig := {
  interval_minutes : option Z;
  lora_enabled : option bool;
  wifi_fallback : option bool
}.

Record Config := {
  cfg_hive_id : string;
  cfg_api_endpoint : string;
  sound_enabled : option bool;
  transmission : option TransmissionConfig
}.

(** The defaults of [load_config]. *)
Definition default_config : Config := {|
  cfg_hive_id := "hive_001";
  cfg_api_endpoint := "https://api.urbanbees.ai";
  sound_enabled := Some true;
  transmission := Some {| interval_minutes := Some 5;
                          lora_enabled := Some true;
                          wifi_fallback := Some true |}
|}.

(** The attributes of a [HiveMonitor].  A driver attribute is [true] when it
    holds a driver object and [false] when it is [None]. *)
Record HiveMonitor := {
  config : Config;
  hive_id : string;
  api_endpoint : string;
  camera : bool;
  dht_sensor : bool;
  weight_sensor : bool;
  temp_sensor : bool;
  lora : bool;
  bee_counter_model : option string;
  sensor_buffer : list Dict;
  last_transmission : Z
}.

Definition set_buffer (buf : list Dict) (m : HiveMonitor) : HiveMonitor := {|
  config := config m; hive_id := hive_id m; api_endpoint := api_endpoint m;
  camera := camera m; dht_sensor := dht_sensor m;
  weight_sensor := weight_sensor m; temp_sensor := temp_sensor m;
  lora := lora m; bee_counter_model := bee_counter_model m;
  sensor_buffer := buf; last_transmission := last_transmission m
|}.

Definition set_last_transmission (t : Z) (m : HiveMonitor) : HiveMonitor := {|
  config := config m; hive_id := hive_id m; api_endpoint := api_endpoint m;
  camera := camera m; dht_sensor := dht_sensor m;
  weight_sensor := weight_sensor m; temp_sensor := temp_sensor m;
  lora := lora m; bee_counter_model := bee_counter_model m;
  sensor_buffer := sensor_buffer m; last_transmission := t
|}.

(* ===================================================================== *)
(** * The outside world *)
(* ===================================================================== *)

Inductive loglevel := INFO | WARNING | ERROR.

(** What the monitor does to the outside world, in the order it does it. *)
Inductive event :=
| EvLoraSend (payload : string) (raised : option exn)
| EvHttpPost (url : string) (json_body : Dict) (response : pyresult Z)
| EvFileAppend (path : string) (text : string) (raised : option exn)
| EvLog (level : loglevel) (msg : string)
| EvSleep (ms : Z).

Inductive activity := low | medium | high.

Definition activity_str (a : activity) : string :=
  match a with low => "low" | medium => "medium" | high => "high" end.

(** What the hardware answers during one snapshot.  A read of the DHT22
    gives a value, gives [None] (the source tests for it), or raises; the
    load cell and the thermometer return a Python value, which the source
    stores as it is, or raise; starting the mixer and capturing an image
    return or raise; the three random draws of the simulated sound analysis
    and bee count are given. *)
Record SensorWorld := {
  dht_temperature : pyresult (option float);
  dht_humidity : pyresult (option float);
  weight_get_units : pyresult value;
  temp_get_temperature : pyresult value;
  mixer_init : option exn;
  uniform_40_80 : float;
  uniform_200_400 : float;
  choice_activity : activity;
  camera_capture_array : option exn;
  randint_50_500 : Z
}.

(** What the outside world answers to the call made at a given tick of the
    model's clock: the wall clock, [lora.send], [requests.post] (a status
    code, or an exception), appending to a file, and the hardware during the
    snapshot of a given loop iteration. *)
Record Env := {
  now : nat → Z;
  lora_send : nat → string → option exn;
  requests_post : nat → string → Dict → pyresult Z;
  file_append : nat → string → string → option exn;
  sensors : nat → SensorWorld
}.

(** The state: the monitor object, the clock of the model, and the files
    written, each a list of the texts appended to it. *)
Record State := {
  monitor : HiveMonitor;
  clock : nat;
  files : gmap string (list string)
}.

Definition tick (s : State) : State := {|
  monitor := monitor s; clock := S (clock s); files := files s
|}.

Definition set_monitor (m : HiveMonitor) (s : State) : State := {|
  monitor := m; clock := clock s; files := files s
|}.

Definition write_file (path text : string) (s : State) : State := {|
  monitor := monitor s; clock := clock s;
  files := <[path := ((files s !!! path) ++ [text])%list]> (files s)
|}.

(* ===================================================================== *)
(** * Computations *)
(* ===================================================================== *)

(** A computation runs from a state and gives its result, the state it
    leaves and the events it caused, in order. *)
Definition M (A : Type) : Type := State → pyresult A * State * list event.

Definition ret {A} (a : A) : M A := fun s => (Ok a, s, []).

Definition bind {A B} (m : M A) (k : A → M B) : M B :=
  fun s => match m s with
           | (Ok a, s1, t1) =>
               match k a s1 with (r, s2, t2) => (r, s2, (t1 ++ t2)%list) end
           | (Raise e, s1, t1) => (Raise e, s1, t1)
           end.

Definition raise {A} (e : exn) : M A := fun s => (Raise e, s, []).

(** [try: m except Exception as e: h e]. *)
Definition try_except {A} (m : M A) (h : exn → M A) : M A :=
  fun s => match m s with
           | (Ok a, s1, t1) => (Ok a, s1, t1)
           | (Raise e, s1, t1) =>
               match h e s1 with (r, s2, t2) => (r, s2, (t1 ++ t2)%list) end
           end.

Notation "x <- m ;; k" := (bind m (fun x => k))
  (at level 100, m at next level, right associativity).
Notation "m ;; k" := (bind m (fun _ => k))
  (at level 100, right associativity).

Definition get_self : M HiveMonitor := fun s => (Ok (monitor s), s, []).
Definition put_self (m : HiveMonitor) : M unit :=
  fun s => (Ok tt, set_monitor m s, []).

(** A value the world already fixed, or the exception it raises. *)
Definition lift {A} (r : pyresult A) : M A := fun s => (r, s, []).

(** An event happens, and time goes on. *)
Definition emit (ev : event) : M unit := fun s => (Ok tt, tick s, [ev]).

Definition log (lvl : loglevel) (msg : string) : M unit :=
  emit (EvLog lvl msg).

(** [await asyncio.sleep(ms / 1000)]. *)
Definition sleep (ms : Z) : M unit := emit (EvSleep ms).

Section World.
Variable E : Env.

(** [datetime.now()]: the wall clock is read, and time goes on. *)
Definition datetime_now : M Z := fun s => (Ok (now E (clock s)), tick s, []).

(** [self.config["transmission"][key]]. *)
Definition config_transmission {A} (key : string)
    (field : TransmissionConfig → option A) : M A :=
  self <- get_self ;;
  match transmission (config self) with
  | None => raise (KeyError "transmission")
  | Some tc => match field tc with
               | None => raise (KeyError key)
               | Some a => ret a
               end
  end.

(** What a call that returns nothing gives: it returns, or raises. *)
Definition returned_or (raised : option exn) : pyresult unit :=
  match raised with None => Ok tt | Some e => Raise e end.

(** [self.lora.send(payload)]. *)
Definition lora_send_call (payload : string) : M unit :=
  self <- get_self ;;
  if lora self then
    fun s => let r := lora_send E (clock s) payload in
             (returned_or r, tick s, [EvLoraSend payload r])
  else raise (AttributeError "'NoneType' object has no attribute 'send'").

(** [requests.post(url, json=data, timeout=30)], then [.status_code]. *)
Definition requests_post_call (url : string) (data : Dict) : M Z :=
  fun s => let r := requests_post E (clock s) url data in
           (r, tick s, [EvHttpPost url data r]).

(** [with open(path, "a") as f: f.write(text)]. *)
Definition file_append_call (path text : string) : M unit :=
  fun s => let r := file_append E (clock s) path text in
           (returned_or r,
            match r with
            | None => write_file path text (tick s)
            | Some _ => tick s
            end,
            [EvFileAppend path text r]).

(* ===================================================================== *)
(** * Transmission *)
(* ===================================================================== *)

(** [HiveMonitor.transmit_via_lora]. *)
Definition transmit_via_lora (data : Dict) : M bool :=
  try_except
    (let compressed_data := compress_sensor_data data in
     lora_send_call compressed_data ;;
     ret true)
    (fun e =>
       log ERROR ("LoRaWAN transmission failed: " ++ exn_str e) ;;
       ret false).

(** [HiveMonitor.transmit_via_http]. *)
Definition transmit_via_http (data : Dict) : M bool :=
  try_except
    (self <- get_self ;;
     status_code <- requests_post_call
                     (api_endpoint self ++ "/api/v1/sensor-data") data ;;
     ret (bool_decide (status_code = 200)))
    (fun e =>
       log ERROR ("HTTP transmission failed: " ++ exn_str e) ;;
       ret false).

(** The name of the day file of [store_locally]. *)
Definition local_data_path (t : Z) : string :=
  "local_data_" ++ strftime_Ymd t ++ ".json".

(** [HiveMonitor.store_locally]. *)
Definition store_locally (data : Dict) : M unit :=
  try_except
    (t <- datetime_now ;;
     file_append_call (local_data_path t) (json_dumps data ++ newline))
    (fun e => log ERROR ("Local storage failed: " ++ exn_str e)).

(** [HiveMonitor.transmit_data].  Each of the two channel blocks answers
    whether the method returned there. *)
Definition transmit_data (data : Dict) : M unit :=
  try_except
    (self <- get_self ;;
     returned <-
       (if lora self then
          enabled <- config_transmission "lora_enabled" lora_enabled ;;
          if enabled : bool then
            success <- transmit_via_lora data ;;
            if success : bool then
              log INFO "📡 Data transmitted via LoRaWAN" ;; ret true
            else ret false
          else ret false
        else ret false) ;;
     if returned : bool then ret tt else
     returned <-
       (fallback <- config_transmission "wifi_fallback" wifi_fallback ;;
        if fallback : bool then
          success <- transmit_via_http data ;;
          if success : bool then
            log INFO "📶 Data transmitted via WiFi" ;; ret true
          else ret false
        else ret false) ;;
     if returned : bool then ret tt else
     store_locally data ;;
     log WARNING "💾 Data stored locally - transmission failed")
    (fun e =>
       log ERROR ("Data transmission failed: " ++ exn_str e) ;;
       store_locally data).

(* ===================================================================== *)
(** * The snapshot of the sensors *)
(* ===================================================================== *)

(** [HiveMonitor.analyze_sound].  [config["sensors"]["sound"]["enabled"]]
    raises [KeyError] when a key of the path is not there. *)
Definition analyze_sound (W : SensorWorld) : M (option Dict) :=
  try_except
    (self <- get_self ;;
     enabled <- match sound_enabled (config self) with
                | None => raise (KeyError "enabled")
                | Some b => ret b
                end ;;
     if negb enabled then ret None else
     lift (returned_or (mixer_init W)) ;;
     sleep 100 ;;
     ret (Some [ ("sound_level_db", VFloat (uniform_40_80 W));
                 ("dominant_frequency_hz", VFloat (uniform_200_400 W));
                 ("activity_level", VStr (activity_str (choice_activity W))) ]))
    (fun e =>
       log WARNING ("Sound analysis failed: " ++ exn_str e) ;;
       ret None).

(** The truth value of [self.bee_counter_model]. *)
Definition model_loaded (m : option string) : bool :=
  match m with
  | None => false
  | Some name => negb (bool_decide (name = EmptyString))
  end.

(** [HiveMonitor.count_bees]. *)
Definition count_bees (W : SensorWorld) : M (option Z) :=
  try_except
    (self <- get_self ;;
     if negb (camera self) || negb (model_loaded (bee_counter_model self))
     then ret None else
     lift (returned_or (camera_capture_array W)) ;;
     sleep 500 ;;
     let bee_count := randint_50_500 W in
     log INFO ("🐝 Counted " ++ pretty bee_count ++ " bees") ;;
     ret (Some bee_count))
    (fun e =>
       log WARNING ("Bee counting failed: " ++ exn_str e) ;;
       ret None).

(** The block of [read_sensors] for the DHT22: both values are read, and
    both keys are set when neither is [None]. *)
Definition read_dht (W : SensorWorld) (readings : Dict) : M Dict :=
  try_except
    (temperature <- lift (dht_temperature W) ;;
     humidity <- lift (dht_humidity W) ;;
     match temperature, humidity with
     | Some t, Some h =>
         ret (dict_set (dict_set readings "temperature_c" (VFloat t))
                       "humidity_percent" (VFloat h))
     | _, _ => ret readings
     end)
    (fun e =>
       log WARNING ("DHT sensor read failed: " ++ exn_str e) ;;
       ret readings).

(** The block for the load cell: what [get_units] returns is stored, with no
    test. *)
Definition read_weight (W : SensorWorld) (readings : Dict) : M Dict :=
  try_except
    (weight <- lift (weight_get_units W) ;;
     ret (dict_set readings "weight_kg" weight))
    (fun e =>
       log WARNING ("Weight sensor read failed: " ++ exn_str e) ;;
       ret readings).

(** The block for the internal thermometer: what [get_temperature] returns
    is stored, with no test. *)
Definition read_internal_temp (W : SensorWorld) (readings : Dict) : M Dict :=
  try_except
    (internal_temp <- lift (temp_get_temperature W) ;;
     ret (dict_set readings "internal_temperature_c" internal_temp))
    (fun e =>
       log WARNING ("Internal temp sensor read failed: " ++ exn_str e) ;;
       ret readings).

(** The body of the outer [try] of [read_sensors]. *)
Definition read_sensors_body (W : SensorWorld) (readings : Dict) : M Dict :=
  self <- get_self ;;
  readings <- (if dht_sensor self then read_dht W readings else ret readings) ;;
  readings <- (if weight_sensor self then read_weight W readings
               else ret readings) ;;
  readings <- (if temp_sensor self then read_internal_temp W readings
               else ret readings) ;;
  sound_data <- analyze_sound W ;;
  let readings := match sound_data with
                  | Some ((_ :: _) as sound) => dict_update readings sound
                  | _ => readings
                  end in
  bee_count <- count_bees W ;;
  let readings := match bee_count with
                  | Some n => dict_set readings "bee_count" (VInt n)
                  | None => readings
                  end in
  ret readings.

(** [HiveMonitor.read_sensors].  The outer handler returns the dictionary as
    it stands when the exception reaches it; no block of the body lets one
    through ([read_sensors_body_returns] below), so the handler never runs
    and the dictionary it is given here is never the one returned. *)
Definition read_sensors (W : SensorWorld) : M Dict :=
  self <- get_self ;;
  t <- datetime_now ;;
  let readings := [ ("timestamp", VStr (isoformat t));
                    ("hive_id", VStr (hive_id self)) ] in
  try_except
    (read_sensors_body W readings)
    (fun e =>
       log ERROR ("Sensor reading failed: " ++ exn_str e) ;;
       ret readings).

(* ===================================================================== *)
(** * The monitoring loop *)
(* ===================================================================== *)

(** [for x in l: body(x)]. *)
Fixpoint for_each {A} (l : list A) (body : A → M unit) : M unit :=
  match l with
  | [] => ret tt
  | x :: rest => body x ;; for_each rest body
  end.

(** The flush of [run_monitoring_loop]: every buffered reading is handed to
    [transmit_data], then the buffer is cleared and the time recorded. *)
Definition flush_buffer (now : Z) : M unit :=
  self <- get_self ;;
  for_each (sensor_buffer self) transmit_data ;;
  self <- get_self ;;
  put_self (set_last_transmission now (set_buffer [] self)).

Definition microseconds (seconds : Z) : Z := seconds * 1000000.

(** The body of the [try] of one iteration, the [i]-th, of the loop.  The
    source compares [total_seconds()], the float nearest to the elapsed
    microseconds over 10^6, with the interval in seconds; the comparison
    here is exact.  The two agree when the elapsed time has reached the
    interval (two [datetime]s are less than 2^39 seconds apart, and whole
    seconds are floats up to 2^53), and when it has not and lies within
    2^34 seconds: up to there two floats are at most 2^-19 apart, so the
    rounding moves the elapsed time by less than a microsecond and cannot
    reach the interval from below. *)
Definition iteration_body (i : nat) : M unit :=
  sensor_data <- read_sensors (sensors E i) ;;
  self <- get_self ;;
  put_self (set_buffer (sensor_buffer self ++ [sensor_data])%list self) ;;
  now <- datetime_now ;;
  self <- get_self ;;
  interval <- config_transmission "interval_minutes" interval_minutes ;;
  (if bool_decide (now - last_transmission self >= microseconds (interval * 60))
   then flush_buffer now
   else ret tt) ;;
  sleep 30000.

(** One iteration of [while True]. *)
Definition loop_iteration (i : nat) : M unit :=
  try_except
    (iteration_body i)
    (fun e =>
       log ERROR ("Monitoring loop error: " ++ exn_str e) ;;
       sleep 60000).

(** The iterations [i], [i+1], ... [i+n-1]. *)
Fixpoint loop_from (i n : nat) : M unit :=
  match n with
  | O => ret tt
  | S n' => loop_iteration i ;; loop_from (S i) n'
  end.

(** [HiveMonitor.run_monitoring_loop], up to the end of its [n]-th
    iteration: the loop itself has no exit. *)
Definition run_monitoring_loop (n : nat) : M unit :=
  log INFO "🚀 Starting hive monitoring loop..." ;;
  loop_from 0 n.

End World.

End Monitor.

(* ===================================================================== *)
(** * Start-up *)
(* ===================================================================== *)

(** The entries of [config["sensors"]] that [initialize_sensors] reads;
    [None] is a key that is not there.  The sections [camera],
    [temperature] and [weight] themselves are there, and an [enabled] entry
    holds a boolean, as in the defaults of [load_config]. *)
Record SensorsConfig := {
  camera_enabled : option bool;
  camera_resolution : option (list Z);
  temperature_enabled : option bool;
  weight_enabled : option bool
}.

(** What the drivers answer at start-up and at shutdown: each call returns
    ([None]) or raises. *)
Record Hardware := {
  picamera2_new : option exn;
  camera_create_still_configuration : option exn;
  camera_configure : option exn;
  camera_start : option exn;
  dht22_new : option exn;
  hx711_new : option exn;
  hx711_set_scale : option exn;
  hx711_tare : option exn;
  w1thermsensor_new : option exn;
  lora_new : option exn;
  camera_stop : option exn
}.

Definition set_camera (b : bool) (m : HiveMonitor) : HiveMonitor := {|
  config := config m; hive_id := hive_id m; api_endpoint := api_endpoint m;
  camera := b; dht_sensor := dht_sensor m;
  weight_sensor := weight_sensor m; temp_sensor := temp_sensor m;
  lora := lora m; bee_counter_model := bee_counter_model m;
  sensor_buffer := sensor_buffer m; last_transmission := last_transmission m
|}.

Definition set_dht_sensor (b : bool) (m : HiveMonitor) : HiveMonitor := {|
  config := config m; hive_id := hive_id m; api_endpoint := api_endpoint m;
  camera := camera m; dht_sensor := b;
  weight_sensor := weight_sensor m; temp_sensor := temp_sensor m;
  lora := lora m; bee_counter_model := bee_counter_model m;
  sensor_buffer := sensor_buffer m; last_transmission := last_transmission m
|}.

Definition set_weight_sensor (b : bool) (m : HiveMonitor) : HiveMonitor := {|
  config := config m; hive_id := hive_id m; api_endpoint := api_endpoint m;
  camera := camera m; dht_sensor := dht_sensor m;
  weight_sensor := b; temp_sensor := temp_sensor m;
  lora := lora m; bee_counter_model := bee_counter_model m;
  sensor_buffer := sensor_buffer m; last_transmission := last_transmission m
|}.

Definition set_temp_sensor (b : bool) (m : HiveMonitor) : HiveMonitor := {|
  config := config m; hive_id := hive_id m; api_endpoint := api_endpoint m;
  camera := camera m; dht_sensor := dht_sensor m;
  weight_sensor := weight_sensor m; temp_sensor := b;
  lora := lora m; bee_counter_model := bee_counter_model m;
  sensor_buffer := sensor_buffer m; last_transmission := last_transmission m
|}.

Definition set_lora (b : bool) (m : HiveMonitor) : HiveMonitor := {|
  config := config m; hive_id := hive_id m; api_endpoint := api_endpoint m;
  camera := camera m; dht_sensor := dht_sensor m;
  weight_sensor := weight_sensor m; temp_sensor := temp_sensor m;
  lora := b; bee_counter_model := bee_counter_model m;
  sensor_buffer := sensor_buffer m; last_transmission := last_transmission m
|}.

Definition set_bee_counter_model (o : option string) (m : HiveMonitor)
  : HiveMonitor := {|
  config := config m; hive_id := hive_id m; api_endpoint := api_endpoint m;
  camera := camera m; dht_sensor := dht_sensor m;
  weight_sensor := weight_sensor m; temp_sensor := temp_sensor m;
  lora := lora m; bee_counter_model := o;
  sensor_buffer := sensor_buffer m; last_transmission := last_transmission m
|}.

Section Startup.
Context {L : PyLib}.
Variable E : Env.
Variable sc : SensorsConfig.
Variable H : Hardware.

Local Notation "x <- m ;; k" := (bind m (fun x => k))
  (at level 100, m at next level, right associativity).
Local Notation "m ;; k" := (bind m (fun _ => k))
  (at level 100, right associativity).

(** [self.attr = ...]. *)
Definition assign (f : HiveMonitor → HiveMonitor) : M unit :=
  self <- get_self ;; put_self (f self).

(** A call of a driver, which returns or raises. *)
Definition call (raised : option exn) : M unit := lift (returned_or raised).

(** [config["sensors"][...][key]]. *)
Definition config_sensors {A} (key : string) (entry : option A) : M A :=
  match entry with
  | None => raise (KeyError key)
  | Some a => ret a
  end.

(** [HiveMonitor.load_bee_counter_model]. *)
Definition load_bee_counter_model : M unit :=
  try_except
    (log INFO "🤖 Loading bee counting AI model..." ;;
     sleep 2000 ;;
     assign (set_bee_counter_model (Some "YOLOv8_bee_counter_v1.tflite")) ;;
     log INFO "✅ AI model loaded successfully")
    (fun e =>
       log ERROR ("Failed to load AI model: " ++ exn_str e) ;;
       assign (set_bee_counter_model None)).

(** [HiveMonitor.initialize_sensors]. *)
Definition initialize_sensors : M unit :=
  log INFO "🔧 Initializing sensors..." ;;
  try_except
    (enabled <- config_sensors "enabled" (camera_enabled sc) ;;
     (if enabled : bool then
        call (picamera2_new H) ;;
        assign (set_camera true) ;;
        resolution <- config_sensors "resolution" (camera_resolution sc) ;;
        call (camera_create_still_configuration H) ;;
        call (camera_configure H) ;;
        call (camera_start H) ;;
        log INFO "📷 Camera initialized"
      else ret tt) ;;
     enabled <- config_sensors "enabled" (temperature_enabled sc) ;;
     (if enabled : bool then
        call (dht22_new H) ;;
        assign (set_dht_sensor true) ;;
        log INFO "🌡️ DHT22 sensor initialized"
      else ret tt) ;;
     enabled <- config_sensors "enabled" (weight_enabled sc) ;;
     (if enabled : bool then
        call (hx711_new H) ;;
        assign (set_weight_sensor true) ;;
        call (hx711_set_scale H) ;;
        call (hx711_tare H) ;;
        log INFO "⚖️ Weight sensor initialized"
      else ret tt) ;;
     try_except
       (call (w1thermsensor_new H) ;;
        assign (set_temp_sensor true) ;;
        log INFO "🌡️ Internal temperature sensor initialized")
       (fun e =>
          log WARNING ("Internal temp sensor not available: " ++ exn_str e)) ;;
     enabled <- config_transmission "lora_enabled" lora_enabled ;;
     (if enabled : bool then
        call (lora_new H) ;;
        assign (set_lora true) ;;
        log INFO "📡 LoRaWAN initialized"
      else ret tt) ;;
     load_bee_counter_model)
    (fun e =>
       log ERROR ("Sensor initialization failed: " ++ exn_str e) ;;
       raise e).

(** The [finally] block of [main]. *)
Definition shutdown : M unit :=
  self <- get_self ;;
  (if camera self then call (camera_stop H) else ret tt) ;;
  log INFO "🐝 Hive monitor shutdown complete".

(** [main], from the constructed monitor on and up to the end of the [n]-th
    iteration of the loop.  The loop has no exit, so the [try] block is left
    by an exception only: [Some e] below; [None] is a run that is still in
    the loop, which has not reached the [finally] block. *)
Definition main (n : nat) : M unit :=
  left_by <-
    try_except
      (initialize_sensors ;;
       run_monitoring_loop E n ;;
       ret None)
      (fun e =>
         log ERROR ("Fatal error: " ++ exn_str e) ;;
         ret (Some e)) ;;
  match left_by with
  | None => ret tt
  | Some _ => shutdown
  end.

End Startup.


(* ===================================================================== *)
(** * Vocabulary of the properties *)
(* ===================================================================== *)

(** The three components of a run. *)
Definition result {A} (o : pyresult A * State * list event) : pyresult A :=
  o.1.1.
Definition state {A} (o : pyresult A * State * list event) : State := o.1.2.
Definition events {A} (o : pyresult A * State * list event) : list event :=
  o.2.

(** Where [transmit_data] may send a reading, in the order of the source. *)
Inductive target := Narrowband | IPBased | LocalFile.

Definition priority_order : list target := [Narrowband; IPBased; LocalFile].

Definition attempt_of (ev : event) : option target :=
  match ev with
  | EvLoraSend _ _ => Some Narrowband
  | EvHttpPost _ _ _ => Some IPBased
  | EvFileAppend _ _ _ => Some LocalFile
  | _ => None
  end.

(** The attempts of a trace, in order. *)
Definition attempts (tr : list event) : list target := omap attempt_of tr.

(** A channel attempt that [transmit_data] takes for a success: [lora.send]
    returned, or the HTTP status is 200. *)
Definition succeeded (ev : event) : bool :=
  match ev with
  | EvLoraSend _ None => true
  | EvHttpPost _ _ (Ok code) => bool_decide (code = 200)
  | _ => false
  end.

(** No attempt follows the first success. *)
Fixpoint stops_at_success (tr : list event) : bool :=
  match tr with
  | [] => true
  | ev :: rest =>
      if succeeded ev then bool_decide (attempts rest = [])
      else stops_at_success rest
  end.

(** The files after the appends of a trace that did not raise. *)
Definition apply_appends (tr : list event) (fs : gmap string (list string))
  : gmap string (list string) :=
  foldl (λ fs ev, match ev with
                  | EvFileAppend path text None =>
                      <[path := ((fs !!! path) ++ [text])%list]> fs
                  | _ => fs
                  end) fs tr.

Definition with_files (fs : gmap string (list string)) (s : State) : State :=
  {| monitor := monitor s; clock := clock s; files := fs |}.

(** Two states that differ in their files only. *)
Definition agree (s1 s2 : State) : Prop :=
  monitor s1 = monitor s2 ∧ clock s1 = clock s2.

(** A computation that never reads a file: from two states that differ in
    their files only it gives the same result and the same events. *)
Definition files_blind {A} (m : M A) : Prop :=
  ∀ s1 s2, agree s1 s2 →
    result (m s1) = result (m s2) ∧ events (m s1) = events (m s2) ∧
    agree (state (m s1)) (state (m s2)).

(** A computation that returns [a] and leaves the monitor object alone. *)
Definition yields {A} (m : M A) (s : State) (a : A) : Prop :=
  result (m s) = Ok a ∧ monitor (state (m s)) = monitor s.

(** The fields of a reading that the reduced encoding keeps, each with its
    key in the payload. *)
Definition priority_fields : list (string * string) :=
  [ ("temperature_c", "t"); ("humidity_percent", "h");
    ("weight_kg", "w"); ("bee_count", "b") ].

(** ** What each sensor measured

    A sensor measured something when its driver is there and its reads
    returned; [None] is a sensor that failed or is not there.  The DHT22
    measured something when both its reads returned a value; the load cell
    and the thermometer measured whatever their driver returned. *)

Definition dht_values (W : SensorWorld) : option (float * float) :=
  match dht_temperature W, dht_humidity W with
  | Ok (Some t), Ok (Some h) => Some (t, h)
  | _, _ => None
  end.

Definition dht_measured (self : HiveMonitor) (W : SensorWorld)
  : option (float * float) :=
  if dht_sensor self then dht_values W else None.

Definition weight_value (W : SensorWorld) : option value :=
  match weight_get_units W with Ok w => Some w | Raise _ => None end.

Definition weight_measured (self : HiveMonitor) (W : SensorWorld)
  : option value :=
  if weight_sensor self then weight_value W else None.

Definition internal_value (W : SensorWorld) : option value :=
  match temp_get_temperature W with Ok t => Some t | Raise _ => None end.

Definition internal_measured (self : HiveMonitor) (W : SensorWorld)
  : option value :=
  if temp_sensor self then internal_value W else None.

Definition sound_measured (self : HiveMonitor) (W : SensorWorld)
  : option (float * float * activity) :=
  match sound_enabled (config self), mixer_init W with
  | Some true, None =>
      Some (uniform_40_80 W, uniform_200_400 W, choice_activity W)
  | _, _ => None
  end.

Definition bees_measured (self : HiveMonitor) (W : SensorWorld) : option Z :=
  if camera self && model_loaded (bee_counter_model self) then
    match camera_capture_array W with
    | None => Some (randint_50_500 W)
    | Some _ => None
    end
  else None.

(** What a measurement adds to the reading. *)
Definition add_dht (o : option (float * float)) (r : Dict) : Dict :=
  match o with
  | Some (t, h) =>
      dict_set (dict_set r "temperature_c" (VFloat t))
               "humidity_percent" (VFloat h)
  | None => r
  end.

Definition add_weight (o : option value) (r : Dict) : Dict :=
  match o with Some w => dict_set r "weight_kg" w | None => r end.

Definition add_internal (o : option value) (r : Dict) : Dict :=
  match o with
  | Some t => dict_set r "internal_temperature_c" t
  | None => r
  end.

Definition sound_dict (x : float * float * activity) : Dict :=
  [ ("sound_level_db", VFloat x.1.1);
    ("dominant_frequency_hz", VFloat x.1.2);
    ("activity_level", VStr (activity_str x.2)) ].

Definition add_sound (o : option (float * float * activity)) (r : Dict)
  : Dict :=
  match o with Some x => dict_update r (sound_dict x) | None => r end.

Definition add_bees (o : option Z) (r : Dict) : Dict :=
  match o with Some n => dict_set r "bee_count" (VInt n) | None => r end.

Section Vocabulary.
Context {L : PyLib}.

(** An event that carries the reading [data]: its reduced payload, the
    reading itself as a JSON body, or its line of the day file. *)
Definition about (data : Dict) (ev : event) : Prop :=
  match ev with
  | EvLoraSend payload _ => payload = compress_sensor_data data
  | EvHttpPost _ body _ => body = data
  | EvFileAppend _ text _ => text = json_dumps data ++ newline
  | _ => True
  end.

(** The three ways a reading leaves [transmit_data]. *)
Definition delivered (data : Dict) (seg : list event) : Prop :=
  EvLoraSend (compress_sensor_data data) None ∈ seg ∨
  ∃ url, EvHttpPost url data (Ok 200) ∈ seg.

Definition spooled (data : Dict) (seg : list event) : Prop :=
  ∃ path, EvFileAppend path (json_dumps data ++ newline) None ∈ seg.

Definition discarded_with_log (data : Dict) (seg : list event) : Prop :=
  ∃ path e,
    EvFileAppend path (json_dumps data ++ newline) (Some e) ∈ seg ∧
    EvLog ERROR ("Local storage failed: " ++ exn_str e) ∈ seg.

Definition accounted (data : Dict) (seg : list event) : Prop :=
  delivered data seg ∨ spooled data seg ∨ discarded_with_log data seg.

(** The reading [read_sensors] returns, from what each sensor measured. *)
Definition snapshot (self : HiveMonitor) (W : SensorWorld) (t : Z) : Dict :=
  add_bees (bees_measured self W)
    (add_sound (sound_measured self W)
       (add_internal (internal_measured self W)
          (add_weight (weight_measured self W)
             (add_dht (dht_measured self W)
                [ ("timestamp", VStr (isoformat t));
                  ("hive_id", VStr (hive_id self)) ])))).

End Vocabulary.

(* ===================================================================== *)
(** * Vocabulary of the further properties *)
(* ===================================================================== *)

(** An event after which the reading is kept somewhere: a channel took it,
    or it was appended to the day file. *)
Definition kept (ev : event) : bool :=
  succeeded ev ||
  match ev with EvFileAppend _ _ None => true | _ => false end.

(** The day file of the day [day]. *)
Definition day_path (day : string) : string := "local_data_" ++ day ++ ".json".

(** [self.config["transmission"]["interval_minutes"]]. *)
Definition interval_lookup (m : HiveMonitor) : pyresult Z :=
  match transmission (config m) with
  | None => Raise (KeyError "transmission")
  | Some tc => match interval_minutes tc with
               | None => Raise (KeyError "interval_minutes")
               | Some minutes => Ok minutes
               end
  end.

(** Two monitor objects with the same configuration, identity, drivers and
    model: they differ in the buffer and the time of the last transmission
    at most. *)
Definition same_setup (m1 m2 : HiveMonitor) : Prop :=
  config m1 = config m2 ∧ hive_id m1 = hive_id m2 ∧
  api_endpoint m1 = api_endpoint m2 ∧ camera m1 = camera m2 ∧
  dht_sensor m1 = dht_sensor m2 ∧ weight_sensor m1 = weight_sensor m2 ∧
  temp_sensor m1 = temp_sensor m2 ∧ lora m1 = lora m2 ∧
  bee_counter_model m1 = bee_counter_model m2.

(** An event that stays on the device and loses nothing: a log line below
    the level of an error, or a pause. *)
Definition is_local (ev : event) : Prop :=
  match ev with
  | EvLog INFO _ | EvLog WARNING _ | EvSleep _ => True
  | _ => False
  end.

(** A computation that only logs and pauses, and leaves the files and the
    monitor object as they are. *)
Definition quiet {A} (m : M A) : Prop :=
  ∀ s, Forall is_local (events (m s)) ∧
       files (state (m s)) = files s ∧ monitor (state (m s)) = monitor s.

(** The keys [read_sensors] may set, in the order it sets them. *)
Definition reading_keys : list string :=
  [ "timestamp"; "hive_id"; "temperature_c"; "humidity_percent"; "weight_kg";
    "internal_temperature_c"; "sound_level_db"; "dominant_frequency_hz";
    "activity_level"; "bee_count" ].

(** A reading stamped by the hive [h]. *)
Definition stamped (h : string) (r : Dict) : Prop :=
  dict_get r "hive_id" = Some (VStr h) ∧ is_Some (dict_get r "timestamp").

(** A reading without a value of the DHT22. *)
Definition without_dht (r : Dict) : Prop :=
  dict_get r "temperature_c" = None ∧ dict_get r "humidity_percent" = None.

(** The drivers as after [__init__]: none is there and no model is loaded. *)
Definition no_drivers (m : HiveMonitor) : Prop :=
  camera m = false ∧ dht_sensor m = false ∧ weight_sensor m = false ∧
  temp_sensor m = false ∧ lora m = false ∧ bee_counter_model m = None.

(** The same hardware with another answer of [W1ThermSensor()]. *)
Definition with_thermometer (o : option exn) (H : Hardware) : Hardware := {|
  picamera2_new := picamera2_new H;
  camera_create_still_configuration := camera_create_still_configuration H;
  camera_configure := camera_configure H;
  camera_start := camera_start H;
  dht22_new := dht22_new H;
  hx711_new := hx711_new H;
  hx711_set_scale := hx711_set_scale H;
  hx711_tare := hx711_tare H;
  w1thermsensor_new := o;
  lora_new := lora_new H;
  camera_stop := camera_stop H
|}.

(** An elapsed time, in microseconds, that [total_seconds()] gives to within
    less than a microsecond: up to 2^34 seconds, which is some 544 years,
    two floats are at most 2^-19 apart. *)
Definition within_float_precision (elapsed : Z) : Prop :=
  Z.abs elapsed <= microseconds (2 ^ 34).

(** The two log lines with which [main] ends. *)
Definition fatal_error (e : exn) : event :=
  EvLog ERROR ("Fatal error: " ++ exn_str e).

Definition shutdown_complete : event :=
  EvLog INFO "🐝 Hive monitor shutdown complete".

Section LoopVocabulary.
Context {L : PyLib}.
Variable E : Env.

(** The line of the day file for a reading. *)
Definition spool_line (data : Dict) : string := json_dumps data ++ newline.

(** The monitor once the reading of the iteration is in the buffer. *)
Definition buffered (i : nat) (s : State) : HiveMonitor :=
  set_buffer
    (sensor_buffer (monitor s)
     ++ [snapshot (monitor s) (sensors E i) (now E (clock s))])%list
    (monitor s).

(** The state in which the interval is looked up. *)
Definition at_check (i : nat) (s : State) : State :=
  tick (set_monitor (buffered i s) (state (read_sensors E (sensors E i) s))).

(** The time the iteration compares with the last transmission. *)
Definition check_time (i : nat) (s : State) : Z :=
  now E (clock (state (read_sensors E (sensors E i) s))).

Definition flush_due (i : nat) (s : State) (minutes : Z) : bool :=
  bool_decide (check_time i s - last_transmission (monitor s)
               >= microseconds (minutes * 60)).

End LoopVocabulary.

(* ===================================================================== *)
(** * Concrete worlds *)
(* ===================================================================== *)

Definition dquote : string := String "034"%char EmptyString.

(** A runtime for the closed examples below: keys and strings without
    special characters are quoted as they are, a time is printed as its
    number of microseconds and a day as its number.  The readings that the
    examples encode hold integers and strings only. *)
Definition example_lib : PyLib := {|
  float_repr := λ _, "nan";
  json_quote := λ s, dquote ++ s ++ dquote;
  isoformat := λ t, pretty t;
  strftime_Ymd := λ t, pretty (t `div` 86400000000)
|}.

Definition example_monitor : HiveMonitor := {|
  config := default_config;
  hive_id := "hive_001";
  api_endpoint := "https://api.urbanbees.ai";
  camera := true; dht_sensor := true; weight_sensor := true;
  temp_sensor := true; lora := true;
  bee_counter_model := Some "YOLOv8_bee_counter_v1.tflite";
  sensor_buffer := [];
  last_transmission := 0
|}.

(** Hardware on which the load cell fails and the DHT22 has no humidity
    value yet. *)
Definition example_sensors : SensorWorld := {|
  dht_temperature := Ok (Some 21.5%float);
  dht_humidity := Ok None;
  weight_get_units := Raise (Exception "OSError" "load cell not ready");
  temp_get_temperature := Ok (VFloat 34.5%float);
  mixer_init := None;
  uniform_40_80 := 52.5%float;
  uniform_200_400 := 250%float;
  choice_activity := medium;
  camera_capture_array := None;
  randint_50_500 := 120
|}.


(** A runtime that prints a float zero as Python does, [0.0]; of the other
    finite floats it prints the sign only.  The examples that use it encode
    no other float. *)
Definition zero_printing_lib : PyLib := {|
  float_repr := λ x, match PrimFloat.classify x with
                     | PZero => "0.0"
                     | NZero => "-0.0"
                     | NaN => "NaN"
                     | PInf => "Infinity"
                     | NInf => "-Infinity"
                     | PNormal | PSubn => "+"
                     | NNormal | NSubn => "-"
                     end;
  json_quote := λ s, dquote ++ s ++ dquote;
  isoformat := λ t, pretty t;
  strftime_Ymd := λ t, pretty (t `div` 86400000000)
|}.

(** A world in which the radio, the endpoint and the disk always answer the
    same; the wall clock advances one second a tick. *)
Definition example_env (radio : option exn) (http : pyresult Z)
    (disk : option exn) : Env := {|
  now := λ n, Z.of_nat n * 1000000;
  lora_send := λ _ _, radio;
  requests_post := λ _ _ _, http;
  file_append := λ _ _ _, disk;
  sensors := λ _, example_sensors
|}.

Definition radio_down : exn := Exception "LoRaError" "no gateway in range".
Definition radio_too_large : exn :=
  Exception "LoRaError" "payload exceeds the maximum size".
Definition disk_full : exn := Exception "OSError" "No space left on device".

Definition older_reading : Dict :=
  [ ("timestamp", VStr "2024-05-01T10:00:00"); ("hive_id", VStr "hive_001");
    ("bee_count", VInt 120) ].

Definition newer_reading : Dict :=
  [ ("timestamp", VStr "2024-05-01T10:05:00"); ("hive_id", VStr "hive_001");
    ("bee_count", VInt 95) ].

Definition example_state (buffer : list Dict)
    (fs : gmap string (list string)) : State := {|
  monitor := set_buffer buffer example_monitor;
  clock := 0%nat;
  files := fs
|}.

(** A day file that holds one reading that was never delivered. *)
Definition spool_with_older_reading : gmap string (list string) :=
  {[ "local_data_0.json" := [@json_dumps example_lib older_reading ++ newline] ]}.

(** A configuration without [interval_minutes]. *)
Definition config_without_interval : Config := {|
  cfg_hive_id := "hive_001";
  cfg_api_endpoint := "https://api.urbanbees.ai";
  sound_enabled := Some true;
  transmission := Some {| interval_minutes := None;
                          lora_enabled := Some true;
                          wifi_fallback := Some true |}
|}.

Definition monitor_without_interval : HiveMonitor := {|
  config := config_without_interval;
  hive_id := "hive_001";
  api_endpoint := "https://api.urbanbees.ai";
  camera := true; dht_sensor := true; weight_sensor := true;
  temp_sensor := true; lora := true;
  bee_counter_model := Some "YOLOv8_bee_counter_v1.tflite";
  sensor_buffer := [];
  last_transmission := 0
|}.

(** ** Worlds of the further properties *)

(** The monitor as [__init__] leaves it, with the defaults of
    [load_config]. *)
Definition fresh_monitor : HiveMonitor := {|
  config := default_config;
  hive_id := "hive_001";
  api_endpoint := "https://api.urbanbees.ai";
  camera := false; dht_sensor := false; weight_sensor := false;
  temp_sensor := false; lora := false;
  bee_counter_model := None;
  sensor_buffer := [];
  last_transmission := 0
|}.

Definition fresh_state : State := {|
  monitor := fresh_monitor; clock := 0%nat; files := ∅
|}.

(** The [sensors] section of the defaults of [load_config]. *)
Definition default_sensors : SensorsConfig := {|
  camera_enabled := Some true;
  camera_resolution := Some [1920; 1080];
  temperature_enabled := Some true;
  weight_enabled := Some true
|}.

(** The same with the temperature sensor disabled. *)
Definition sensors_without_dht : SensorsConfig := {|
  camera_enabled := Some true;
  camera_resolution := Some [1920; 1080];
  temperature_enabled := Some false;
  weight_enabled := Some true
|}.

(** Hardware on which every driver call returns. *)
Definition working_hardware : Hardware := {|
  picamera2_new := None;
  camera_create_still_configuration := None;
  camera_configure := None;
  camera_start := None;
  dht22_new := None;
  hx711_new := None;
  hx711_set_scale := None;
  hx711_tare := None;
  w1thermsensor_new := None;
  lora_new := None;
  camera_stop := None
|}.

Definition dht_unplugged : exn :=
  Exception "RuntimeError" "DHT sensor not found, check wiring".
Definition no_thermometer : exn :=
  Exception "NoSensorFoundError" "no 1-wire sensor found".

(** Hardware on which the constructor of the DHT22 raises. *)
Definition hardware_without_dht : Hardware := {|
  picamera2_new := None;
  camera_create_still_configuration := None;
  camera_configure := None;
  camera_start := None;
  dht22_new := Some dht_unplugged;
  hx711_new := None;
  hx711_set_scale := None;
  hx711_tare := None;
  w1thermsensor_new := None;
  lora_new := None;
  camera_stop := None
|}.

(** A world in which nothing is delivered and the day does not change: no
    gateway is in range, the endpoint answers 503 and the disk takes every
    append. *)
Definition offline_env : Env := {|
  now := λ _, 0;
  lora_send := λ _ _, Some radio_down;
  requests_post := λ _ _ _, Ok 503;
  file_append := λ _ _ _, None;
  sensors := λ _, example_sensors
|}.

(** A configuration without a [transmission] section. *)
Definition config_without_transmission : Config := {|
  cfg_hive_id := "hive_001";
  cfg_api_endpoint := "https://api.urbanbees.ai";
  sound_enabled := Some true;
  transmission := None
|}.

(** A configuration that forbids the HTTP fallback. *)
Definition config_without_fallback : Config := {|
  cfg_hive_id := "hive_001";
  cfg_api_endpoint := "https://api.urbanbees.ai";
  sound_enabled := Some true;
  transmission := Some {| interval_minutes := Some 5;
                          lora_enabled := Some true;
                          wifi_fallback := Some false |}
|}.

(** A monitor without a radio, with the configuration [c]. *)
Definition monitor_without_radio (c : Config) : HiveMonitor := {|
  config := c;
  hive_id := "hive_001";
  api_endpoint := "https://api.urbanbees.ai";
  camera := true; dht_sensor := true; weight_sensor := true;
  temp_sensor := true; lora := false;
  bee_counter_model := Some "YOLOv8_bee_counter_v1.tflite";
  sensor_buffer := [];
  last_transmission := 0
|}.

(** The state of [m] at the tick [n], without files. *)
Definition state_at (m : HiveMonitor) (n : nat) : State := {|
  monitor := m; clock := n; files := ∅
|}.

(* ===================================================================== *)
(** * Running a computation *)
(* ===================================================================== *)

Ltac unfold_prims :=
  cbv [bind ret raise try_except lift log sleep emit get_self put_self
       datetime_now config_transmission lora_send_call requests_post_call
       file_append_call returned_or] in *.

Ltac unfold_transmit :=
  cbv [transmit_data transmit_via_lora transmit_via_http store_locally] in *;
  unfold_prims.

(** Cases on the innermost [match] of the run [H] that is stuck on an answer
    of the world or on a setting of the monitor. *)
Ltac case_innermost H :=
  match type of H with
  | context [match ?x with _ => _ end] =>
      lazymatch x with
      | context [match _ with _ => _ end] => fail
      | _ => destruct x eqn:?
      end
  end.

Ltac run_cases H :=
  cbn [monitor clock files tick set_monitor write_file] in H;
  repeat (case_innermost H;
          cbn [monitor clock files tick set_monitor write_file] in H;
          cbv beta iota in H);
  cbn [app] in H.

(** Runs [comp s], one goal for each path through [comp]. *)
Ltac run comp s :=
  let o := fresh "o" in
  let Ho := fresh "Ho" in
  remember (comp s) as o eqn:Ho;
  destruct s as [?m ?c ?fs]; unfold_transmit; run_cases Ho;
  subst o; cbn [result state events fst snd monitor clock files] in *.

Ltac solve_elem :=
  repeat first [ apply list_elem_of_here | apply list_elem_of_further ].

Ltac use_status :=
  repeat match goal with
         | H : bool_decide (_ = 200) = true |- _ =>
             apply bool_decide_eq_true in H; subst
         | H : bool_decide _ = _ |- _ => rewrite ?H; clear H
         end.

Section Proofs.
Context {L : PyLib}.
Variable E : Env.

(* ===================================================================== *)
(** * Dictionaries and the codec *)
(* ===================================================================== *)

Lemma dict_get_set_eq d k v : dict_get (dict_set d k v) k = Some v.
Proof.
  induction d as [|[k' v'] d IH]; simpl.
  - by rewrite decide_True.
  - destruct (decide (k' = k)) as [->|Hne]; simpl.
    + by rewrite decide_True.
    + by rewrite decide_False.
Qed.

Lemma dict_get_set_ne d k k' v :
  k ≠ k' → dict_get (dict_set d k v) k' = dict_get d k'.
Proof.
  intros Hne. induction d as [|[k0 v0] d IH]; simpl.
  - by rewrite decide_False.
  - destruct (decide (k0 = k)) as [->|Hk]; simpl.
    + by rewrite !decide_False.
    + destruct (decide (k0 = k')); auto.
Qed.


Lemma dict_get_Forall (P : value → Prop) d k v :
  Forall (λ kv, P kv.2) d → dict_get d k = Some v → P v.
Proof.
  induction 1 as [|[k' v'] d HP _ IH]; simpl; [done|].
  destruct (decide (k' = k)); [by intros [= <-]|done].
Qed.

(** The payload is a function of the four priority fields, each with its
    default. *)
Lemma compress_ext d1 d2 :
  (∀ field, field ∈ priority_fields.*1 →
     dict_get_default d1 field (VInt 0) = dict_get_default d2 field (VInt 0)) →
  compress_sensor_data d1 = compress_sensor_data d2.
Proof.
  intros H. unfold compress_sensor_data, essential_data.
  rewrite !H; [done|..]; cbn; solve_elem.
Qed.

(** ** The text of the payload *)

Lemma string_app_assoc (a b c : string) : (a ++ b) ++ c = a ++ b ++ c.
Proof.
  induction a as [|x a IH]; [reflexivity|].
  change (String x ((a ++ b) ++ c) = String x (a ++ b ++ c)). by rewrite IH.
Qed.

Lemma list_ascii_of_string_app (a b : string) :
  list_ascii_of_string (a ++ b)
    = (list_ascii_of_string a ++ list_ascii_of_string b)%list.
Proof.
  induction a as [|x a IH]; [reflexivity|].
  change (x :: list_ascii_of_string (a ++ b)
          = x :: (list_ascii_of_string a ++ list_ascii_of_string b)%list).
  by rewrite IH.
Qed.

Lemma string_app_inv_tail (a b t : string) : a ++ t = b ++ t → a = b.
Proof.
  intros Heq. apply (f_equal list_ascii_of_string) in Heq.
  rewrite !list_ascii_of_string_app in Heq. apply app_inv_tail in Heq.
  apply (f_equal string_of_list_ascii) in Heq.
  by rewrite !string_of_list_ascii_of_string in Heq.
Qed.

(** The payload changes with the text of each priority field: two readings
    that [json.dumps] prints differently in one priority field, and alike
    in the three others, have different payloads. *)
Lemma compress_sensitive data data' field key :
  (field, key) ∈ priority_fields →
  (∀ f, f ∈ priority_fields.*1 → f ≠ field →
        dict_get_default data' f (VInt 0) = dict_get_default data f (VInt 0)) →
  json_dumps_value (dict_get_default data' field (VInt 0))
    ≠ json_dumps_value (dict_get_default data field (VInt 0)) →
  compress_sensor_data data' ≠ compress_sensor_data data.
Proof.
  intros Hin Hsame Hdiff Heq. apply Hdiff. clear Hdiff.
  unfold compress_sensor_data, encode, json_dumps, essential_data, json_items,
    json_item in Heq.
  cbn [fst snd] in Heq. rewrite !string_app_assoc in Heq.
  assert (Hrest : ∀ f, f ∈ priority_fields.*1 → f ≠ field →
            json_dumps_value (dict_get_default data' f (VInt 0))
              = json_dumps_value (dict_get_default data f (VInt 0)))
    by (intros f ? ?; by rewrite Hsame).
  clear Hsame. unfold priority_fields in Hin, Hrest. cbn in Hrest.
  repeat (apply elem_of_cons in Hin as [Hin|Hin];
          [ simplify_eq;
            rewrite ?(Hrest "temperature_c"), ?(Hrest "humidity_percent"),
              ?(Hrest "weight_kg"), ?(Hrest "bee_count") in Heq
              by (first [discriminate | solve [solve_elem]]);
            repeat apply (inj (String.app _)) in Heq;
            by apply string_app_inv_tail in Heq | ]).
  by apply not_elem_of_nil in Hin.
Qed.

(** A field that is set in a reading leaves the other priority fields as
    they are. *)
Lemma dict_get_default_set_ne d k k' v dflt :
  k ≠ k' → dict_get_default (dict_set d k v) k' dflt = dict_get_default d k' dflt.
Proof. intros Hne. unfold dict_get_default. by rewrite dict_get_set_ne. Qed.

(* ===================================================================== *)
(** * Sequencing *)
(* ===================================================================== *)

Lemma bind_Ok_run {A B} (m : M A) (k : A → M B) s a :
  result (m s) = Ok a →
  bind m k s = (result (k a (state (m s))), state (k a (state (m s))),
                (events (m s) ++ events (k a (state (m s))))%list).
Proof.
  unfold bind, result, state, events.
  destruct (m s) as [[r s1] t1]; simpl. intros ->.
  by destruct (k a s1) as [[r s2] t2].
Qed.

Lemma try_except_Ok_run {A} (m : M A) h s a :
  result (m s) = Ok a → try_except m h s = m s.
Proof.
  unfold try_except, result.
  destruct (m s) as [[r s1] t1]; simpl. by intros ->.
Qed.

Lemma try_except_Raise_run {A} (m : M A) h s e :
  result (m s) = Raise e →
  try_except m h s =
    (result (h e (state (m s))), state (h e (state (m s))),
     (events (m s) ++ events (h e (state (m s))))%list).
Proof.
  unfold try_except, result, state, events.
  destruct (m s) as [[r s1] t1]; simpl. intros ->.
  by destruct (h e s1) as [[r s2] t2].
Qed.

Lemma yields_datetime_now s : yields (datetime_now E) s (now E (clock s)).
Proof. done. Qed.

Lemma yields_bind {A B} (m : M A) (k : A → M B) s a b :
  yields m s a →
  (∀ s', monitor s' = monitor s → yields (k a) s' b) →
  yields (bind m k) s b.
Proof.
  intros [Hr Hm] Hk. unfold yields in *.
  rewrite (bind_Ok_run _ _ _ _ Hr). cbn [result state fst snd].
  destruct (Hk _ Hm) as [Hr' Hm']. split; congruence.
Qed.

Lemma yields_bind_get_self {B} (k : HiveMonitor → M B) s b :
  yields (k (monitor s)) s b → yields (bind get_self k) s b.
Proof.
  unfold yields, bind, get_self, result, state. cbn.
  by destruct (k (monitor s) s) as [[r s2] t2].
Qed.

Lemma yields_try_except {A} (m : M A) h s a :
  yields m s a → yields (try_except m h) s a.
Proof.
  unfold yields, try_except, result, state.
  destruct (m s) as [[r s1] t1]; simpl. by intros [-> ?].
Qed.

Lemma yields_if {A} (b : bool) (m : M A) s a r :
  yields m s a → yields (if b then m else ret r) s (if b then a else r).
Proof. by destruct b. Qed.

(* ===================================================================== *)
(** * Traces and files *)
(* ===================================================================== *)

Lemma elem_of_concat {A} (x : A) l ls : l ∈ ls → x ∈ l → x ∈ concat ls.
Proof.
  induction 1 as [|l' ls' Hin IH]; intros Hx; simpl; apply elem_of_app; auto.
Qed.

Lemma stops_at_success_spec tr :
  stops_at_success tr = true →
  ∀ pre ev post,
    tr = (pre ++ ev :: post)%list → succeeded ev = true → attempts post = [].
Proof.
  induction tr as [|ev0 rest IH]; intros Hstop pre ev post Heq Hev.
  - by destruct pre.
  - simpl in Hstop. destruct pre as [|x pre]; simplify_eq/=.
    + rewrite Hev in Hstop. by apply bool_decide_eq_true in Hstop.
    + destruct (succeeded x); [|eauto].
      apply bool_decide_eq_true in Hstop. unfold attempts in *.
      rewrite omap_app in Hstop. apply app_eq_nil in Hstop as [_ Hstop].
      simpl in Hstop. by destruct (attempt_of ev).
Qed.

(** Appending never touches what a file already holds. *)
Lemma apply_appends_prefix tr fs path :
  (fs !!! path) `prefix_of` (apply_appends tr fs !!! path).
Proof.
  revert fs. induction tr as [|ev tr IH]; intros fs; [done|].
  unfold apply_appends in *. simpl.
  etrans; [|apply IH].
  destruct ev as [| | p text [e|] | |]; try done.
  destruct (decide (p = path)) as [->|Hne].
  - rewrite lookup_total_insert_eq. by apply prefix_app_r.
  - by rewrite lookup_total_insert_ne.
Qed.

Lemma apply_appends_app t1 t2 fs :
  apply_appends (t1 ++ t2) fs = apply_appends t2 (apply_appends t1 fs).
Proof. unfold apply_appends. by rewrite foldl_app. Qed.

(** What was appended without an exception is in the file. *)
Lemma apply_appends_elem tr fs path text :
  EvFileAppend path text None ∈ tr → text ∈ apply_appends tr fs !!! path.
Proof.
  revert fs. induction tr as [|ev tr IH]; intros fs Hin.
  - by apply not_elem_of_nil in Hin.
  - apply elem_of_cons in Hin as [<-|Hin]; [|by apply IH].
    change (apply_appends (EvFileAppend path text None :: tr) fs)
      with (apply_appends tr (<[path := ((fs !!! path) ++ [text])%list]> fs)).
    eapply elem_of_prefix; [|apply apply_appends_prefix].
    rewrite lookup_total_insert_eq. apply elem_of_app. right.
    by apply list_elem_of_singleton.
Qed.

(* ===================================================================== *)
(** * Computations that never read a file *)
(* ===================================================================== *)

Lemma blind_ret {A} (a : A) : files_blind (ret a).
Proof. by intros s1 s2 H. Qed.

Lemma blind_raise {A} e : files_blind (@raise A e).
Proof. by intros s1 s2 H. Qed.

Lemma blind_get_self : files_blind get_self.
Proof.
  intros s1 s2 [Hm Hc]. unfold get_self, result, events, state; simpl.
  by rewrite Hm.
Qed.

Lemma blind_put_self m : files_blind (put_self m).
Proof. intros s1 s2 [Hm Hc]. repeat split; simpl; congruence. Qed.

Lemma blind_emit ev : files_blind (emit ev).
Proof. intros s1 s2 [Hm Hc]. repeat split; simpl; congruence. Qed.

Lemma blind_datetime_now : files_blind (datetime_now E).
Proof.
  intros s1 s2 [Hm Hc].
  unfold datetime_now, result, events, state, agree; simpl.
  by rewrite Hm, Hc.
Qed.

Lemma blind_requests_post_call url data :
  files_blind (requests_post_call E url data).
Proof.
  intros s1 s2 [Hm Hc].
  unfold requests_post_call, result, events, state, agree; simpl.
  by rewrite Hm, Hc.
Qed.

Lemma blind_file_append_call path text :
  files_blind (file_append_call E path text).
Proof.
  intros s1 s2 [Hm Hc].
  unfold file_append_call, result, events, state, agree; simpl.
  rewrite Hc.
  by destruct (file_append E (clock s2) path text); simpl; rewrite Hm, Hc.
Qed.

Lemma blind_bind {A B} (m : M A) (k : A → M B) :
  files_blind m → (∀ a, files_blind (k a)) → files_blind (bind m k).
Proof.
  intros Hm Hk s1 s2 H. destruct (Hm s1 s2 H) as (Hr & He & Hs).
  unfold bind, result, events, state in *.
  destruct (m s1) as [[r1 s1'] t1], (m s2) as [[r2 s2'] t2]; simpl in *; subst.
  destruct r2 as [a|e]; [|done].
  destruct (Hk a s1' s2' Hs) as (Hr' & He' & Hs').
  unfold result, events, state in *.
  destruct (k a s1') as [[? ?] ?], (k a s2') as [[? ?] ?]; simpl in *; by subst.
Qed.

Lemma blind_try_except {A} (m : M A) h :
  files_blind m → (∀ e, files_blind (h e)) → files_blind (try_except m h).
Proof.
  intros Hm Hk s1 s2 H. destruct (Hm s1 s2 H) as (Hr & He & Hs).
  unfold try_except, result, events, state in *.
  destruct (m s1) as [[r1 s1'] t1], (m s2) as [[r2 s2'] t2]; simpl in *; subst.
  destruct r2 as [a|e]; [done|].
  destruct (Hk e s1' s2' Hs) as (Hr' & He' & Hs').
  unfold result, events, state in *.
  destruct (h e s1') as [[? ?] ?], (h e s2') as [[? ?] ?]; simpl in *; by subst.
Qed.

Lemma blind_lora_send_call payload : files_blind (lora_send_call E payload).
Proof.
  apply blind_bind; [apply blind_get_self|]. intros self.
  destruct (lora self); [|apply blind_raise].
  intros s1 s2 [Hm Hc]. unfold result, events, state, agree; simpl.
  by rewrite Hm, Hc.
Qed.

Ltac blind_step :=
  lazymatch goal with
  | |- files_blind (bind _ _) => apply blind_bind
  | |- files_blind (try_except _ _) => apply blind_try_except
  | |- files_blind (ret _) => apply blind_ret
  | |- files_blind (raise _) => apply blind_raise
  | |- files_blind get_self => apply blind_get_self
  | |- files_blind (put_self _) => apply blind_put_self
  | |- files_blind (log _ _) => apply blind_emit
  | |- files_blind (datetime_now _) => apply blind_datetime_now
  | |- files_blind (requests_post_call _ _ _) =>
      apply blind_requests_post_call
  | |- files_blind (file_append_call _ _ _) => apply blind_file_append_call
  | |- files_blind (lora_send_call _ _) => apply blind_lora_send_call
  | |- files_blind (if ?b then _ else _) => destruct b
  | |- files_blind (match ?x with _ => _ end) => destruct x
  | |- ∀ _, _ => intro
  end.

Lemma blind_transmit_data data : files_blind (transmit_data E data).
Proof.
  unfold transmit_data, transmit_via_lora, transmit_via_http, store_locally,
    config_transmission.
  repeat blind_step.
Qed.

Lemma blind_for_each {A} (l : list A) body :
  (∀ x, files_blind (body x)) → files_blind (for_each l body).
Proof.
  intros Hbody. induction l as [|x l IH]; simpl; [apply blind_ret|].
  apply blind_bind; auto.
Qed.

Lemma blind_flush_buffer t : files_blind (flush_buffer E t).
Proof.
  unfold flush_buffer. apply blind_bind; [apply blind_get_self|]. intros self.
  apply blind_bind; [apply blind_for_each, blind_transmit_data|]. intros _.
  repeat blind_step.
Qed.

(* ===================================================================== *)
(** * One reading through [transmit_data] *)
(* ===================================================================== *)

Lemma transmit_data_returns data s :
  result (transmit_data E data s) = Ok tt ∧
  monitor (state (transmit_data E data s)) = monitor s ∧
  files (state (transmit_data E data s))
    = apply_appends (events (transmit_data E data s)) (files s).
Proof. run (transmit_data E data) s; by cbn. Qed.

Lemma transmit_data_attempts data s :
  attempts (events (transmit_data E data s)) `sublist_of` priority_order ∧
  stops_at_success (events (transmit_data E data s)) = true.
Proof.
  run (transmit_data E data) s;
    (split; [ cbn; unfold priority_order; eauto 10 using sublist
            | cbn [stops_at_success succeeded]; use_status; done ]).
Qed.

Lemma transmit_data_about data s :
  Forall (about data) (events (transmit_data E data s)).
Proof. run (transmit_data E data) s; repeat constructor. Qed.

Lemma transmit_data_accounted data s :
  accounted data (events (transmit_data E data s)).
Proof.
  unfold accounted, delivered, spooled, discarded_with_log.
  run (transmit_data E data) s; use_status;
    first [ left; left; solve [solve_elem]
          | left; right; eexists; solve [solve_elem]
          | right; left; eexists; solve [solve_elem]
          | right; right; do 2 eexists; split; solve [solve_elem] ].
Qed.

(** The narrowband attempt: [lora.send] is called once, with the reduced
    payload, and the answer is whether it returned. *)
Lemma transmit_via_lora_run data s :
  lora (monitor s) = true →
  transmit_via_lora E data s =
    match lora_send E (clock s) (compress_sensor_data data) with
    | None =>
        (Ok true, tick s, [EvLoraSend (compress_sensor_data data) None])
    | Some e =>
        (Ok false, tick (tick s),
         [EvLoraSend (compress_sensor_data data) (Some e);
          EvLog ERROR ("LoRaWAN transmission failed: " ++ exn_str e)])
    end.
Proof.
  intros Hlora. unfold transmit_via_lora, lora_send_call.
  unfold_prims. cbn. rewrite Hlora.
  by destruct (lora_send E (clock s) (compress_sensor_data data)).
Qed.

(* ===================================================================== *)
(** * The flush *)
(* ===================================================================== *)

Lemma for_each_transmit_run buf s :
  let o := for_each buf (transmit_data E) s in
  result o = Ok tt ∧ monitor (state o) = monitor s ∧
  files (state o) = apply_appends (events o) (files s).
Proof.
  revert s. induction buf as [|data buf IH]; intros s; [done|].
  cbn [for_each].
  destruct (transmit_data_returns data s) as (Hr & Hm & Hf).
  rewrite (bind_Ok_run _ _ _ _ Hr). cbn [result state events fst snd].
  destruct (IH (state (transmit_data E data s))) as (Hr' & Hm' & Hf').
  cbn zeta in *. split_and!; [done|congruence|].
  by rewrite apply_appends_app, <- Hf.
Qed.

(** The events of the loop over the buffer fall into one segment for each
    reading, in the order of the buffer. *)
Lemma for_each_transmit_segments (P : Dict → list event → Prop) buf s :
  (∀ data s', P data (events (transmit_data E data s'))) →
  ∃ segs, events (for_each buf (transmit_data E) s) = concat segs ∧
          Forall2 P buf segs.
Proof.
  intros HP. revert s. induction buf as [|data buf IH]; intros s.
  - by exists [].
  - cbn [for_each].
    destruct (transmit_data_returns data s) as (Hr & _ & _).
    rewrite (bind_Ok_run _ _ _ _ Hr). cbn [events snd].
    destruct (IH (state (transmit_data E data s))) as (segs & -> & Hall).
    exists (events (transmit_data E data s) :: segs). split; [done|].
    constructor; auto.
Qed.

Lemma flush_buffer_run t s :
  let o := for_each (sensor_buffer (monitor s)) (transmit_data E) s in
  flush_buffer E t s =
    (Ok tt,
     set_monitor (set_last_transmission t (set_buffer [] (monitor s)))
                 (state o),
     events o).
Proof.
  cbn zeta. unfold flush_buffer.
  rewrite (bind_Ok_run get_self _ s (monitor s) eq_refl).
  cbn [result state events fst snd get_self app].
  destruct (for_each_transmit_run (sensor_buffer (monitor s)) s)
    as (Hr & Hm & Hf).
  cbn zeta in *.
  rewrite (bind_Ok_run _ _ _ _ Hr).
  rewrite (bind_Ok_run get_self _ _ _ eq_refl).
  cbn [result state events fst snd get_self put_self app].
  by rewrite Hm, !app_nil_r.
Qed.

(* ===================================================================== *)
(** * The snapshot *)
(* ===================================================================== *)

Lemma read_dht_yields W r s :
  yields (read_dht W r) s (add_dht (dht_values W) r).
Proof.
  unfold yields, read_dht, dht_values, try_except, bind, lift, log, emit, ret,
    result, state.
  destruct (dht_temperature W) as [[?|]|?], (dht_humidity W) as [[?|]|?]; done.
Qed.

Lemma read_weight_yields W r s :
  yields (read_weight W r) s (add_weight (weight_value W) r).
Proof.
  unfold yields, read_weight, weight_value, try_except, bind, lift, log, emit,
    ret, result, state.
  by destruct (weight_get_units W).
Qed.

Lemma read_internal_temp_yields W r s :
  yields (read_internal_temp W r) s (add_internal (internal_value W) r).
Proof.
  unfold yields, read_internal_temp, internal_value, try_except, bind, lift,
    log, emit, ret, result, state.
  by destruct (temp_get_temperature W).
Qed.

Lemma analyze_sound_yields W s :
  yields (analyze_sound W) s (sound_dict <$> sound_measured (monitor s) W).
Proof.
  unfold yields, analyze_sound, sound_measured, try_except, bind, lift, log,
    sleep, emit, ret, raise, get_self, returned_or, result, state.
  cbn. destruct (sound_enabled (config (monitor s))) as [[|]|]; cbn; try done.
  by destruct (mixer_init W).
Qed.

Lemma count_bees_yields W s :
  yields (count_bees W) s (bees_measured (monitor s) W).
Proof.
  unfold yields, count_bees, bees_measured, try_except, bind, lift, log,
    sleep, emit, ret, raise, get_self, returned_or, result, state.
  cbn.
  destruct (camera (monitor s)),
    (model_loaded (bee_counter_model (monitor s))); cbn; try done.
  by destruct (camera_capture_array W).
Qed.

(** No block of the body of [read_sensors] lets an exception through. *)
Lemma read_sensors_body_returns W r s :
  yields (read_sensors_body W r) s
    (add_bees (bees_measured (monitor s) W)
       (add_sound (sound_measured (monitor s) W)
          (add_internal (internal_measured (monitor s) W)
             (add_weight (weight_measured (monitor s) W)
                (add_dht (dht_measured (monitor s) W) r))))).
Proof.
  unfold read_sensors_body.
  eapply yields_bind; [done|]. intros s1 H1. cbv beta.
  eapply yields_bind; [apply yields_if, read_dht_yields|].
  intros s2 H2. cbv beta.
  eapply yields_bind; [apply yields_if, read_weight_yields|].
  intros s3 H3. cbv beta.
  eapply yields_bind; [apply yields_if, read_internal_temp_yields|].
  intros s4 H4. cbv beta.
  eapply yields_bind; [apply analyze_sound_yields|]. intros s5 H5.
  cbv beta zeta.
  eapply yields_bind; [apply count_bees_yields|]. intros s6 H6.
  cbv beta zeta.
  replace (monitor s5) with (monitor s) by congruence.
  replace (monitor s4) with (monitor s) by congruence.
  assert (Hret : ∀ x y : Dict, x = y → yields (ret x) s6 y)
    by (by intros x y ->).
  apply Hret.
  unfold dht_measured, weight_measured, internal_measured.
  destruct (dht_sensor (monitor s)), (weight_sensor (monitor s)),
    (temp_sensor (monitor s)), (bees_measured (monitor s) W),
    (sound_measured (monitor s) W); reflexivity.
Qed.

Lemma read_sensors_returns W s :
  yields (read_sensors E W) s (snapshot (monitor s) W (now E (clock s))).
Proof.
  unfold read_sensors, snapshot.
  apply yields_bind_get_self.
  eapply yields_bind; [apply yields_datetime_now|]; intros s2 H2.
  cbv beta zeta.
  apply yields_try_except.
  rewrite <- H2. apply read_sensors_body_returns.
Qed.

(* ===================================================================== *)
(** * The monitoring loop *)
(* ===================================================================== *)

Lemma loop_iteration_returns i s : result (loop_iteration E i s) = Ok tt.
Proof.
  unfold loop_iteration.
  destruct (result (iteration_body E i s)) as [[]|e] eqn:Hbody.
  - by rewrite (try_except_Ok_run _ _ _ _ Hbody).
  - by rewrite (try_except_Raise_run _ _ _ _ Hbody).
Qed.

Lemma loop_from_returns n i s : result (loop_from E i n s) = Ok tt.
Proof.
  revert i s. induction n as [|n IH]; intros i s; [done|].
  cbn [loop_from].
  rewrite (bind_Ok_run _ _ _ _ (loop_iteration_returns i s)).
  apply IH.
Qed.

(* ===================================================================== *)
(** * The properties of the pipeline *)
(* ===================================================================== *)

(** C1, as the code has it: no reading is discarded explicitly, and none is
    kept to be retried.  After the flush that drains the buffer, every
    reading the buffer held has its own segment of the trace, in which it
    was delivered over a channel ([lora.send] returned with its reduced
    payload, or the endpoint answered 200 to the reading), or appended to
    the day file, where it then is, or, when that append raised, lost, with
    the failure of the local store logged as an error; the flush returns
    and leaves the buffer empty. *)
Theorem flush_accounts_for_every_reading t s :
  let o := flush_buffer E t s in
  result o = Ok tt ∧
  sensor_buffer (monitor (state o)) = [] ∧
  ∃ segs,
    events o = concat segs ∧
    Forall2
      (λ data seg,
         delivered data seg ∨
         (∃ path,
            EvFileAppend path (json_dumps data ++ newline) None ∈ seg ∧
            json_dumps data ++ newline ∈ files (state o) !!! path) ∨
         discarded_with_log data seg)
      (sensor_buffer (monitor s)) segs.
Proof.
  cbn zeta. rewrite flush_buffer_run. cbn [result state events fst snd].
  split; [done|]. split; [done|].
  destruct (for_each_transmit_segments accounted (sensor_buffer (monitor s)) s)
    as (segs & Hev & Hall); [apply transmit_data_accounted|].
  exists segs. split; [done|].
  destruct (for_each_transmit_run (sensor_buffer (monitor s)) s)
    as (_ & _ & Hf).
  cbn zeta in Hf. cbn [files set_monitor]. rewrite Hf, Hev.
  clear Hf Hev.
  assert (Hsub : ∀ seg, seg ∈ segs → ∀ ev, ev ∈ seg → ev ∈ concat segs)
    by eauto using elem_of_concat.
  revert Hsub. generalize (concat segs) as tr. intros tr Hsub.
  induction Hall as [|data seg buf segs' Hacc Hall IH]; constructor.
  - destruct Hacc as [Hd|[[path Hsp]|Hdis]]; [by left| |by right; right].
    right; left. exists path. split; [done|].
    apply apply_appends_elem. eapply Hsub; [apply list_elem_of_here|done].
  - apply IH. intros seg' Hseg'. apply Hsub. by apply list_elem_of_further.
Qed.

(** C2: for one reading, the attempts of [transmit_data] come in the order
    narrowband, IP-based, local file, each at most once, and no attempt, on
    a channel or on the local file, follows an attempt that succeeded. *)
Theorem transmit_data_priority_order data s :
  let tr := events (transmit_data E data s) in
  attempts tr `sublist_of` priority_order ∧
  ∀ pre ev post,
    tr = (pre ++ ev :: post)%list → succeeded ev = true → attempts post = [].
Proof.
  cbn zeta. destruct (transmit_data_attempts data s) as [Hsub Hstop].
  split; [done|]. by apply stops_at_success_spec.
Qed.

(** C3, as the code has it: a flush replays nothing.  Every event of a flush
    carries a reading of the in-memory buffer, in the order of the buffer;
    what the day files held before the flush is still there after it, in
    place; and the flush does the same whatever the files hold. *)
Theorem flush_transmits_the_buffer_only t s :
  let o := flush_buffer E t s in
  (∃ segs,
     events o = concat segs ∧
     Forall2 (λ data seg, Forall (about data) seg)
             (sensor_buffer (monitor s)) segs) ∧
  (∀ path, (files s !!! path) `prefix_of` (files (state o) !!! path)) ∧
  (∀ fs, events (flush_buffer E t (with_files fs s)) = events o).
Proof.
  cbn zeta. split_and!.
  - rewrite flush_buffer_run. cbn [events snd].
    apply for_each_transmit_segments, transmit_data_about.
  - intros path. rewrite flush_buffer_run. cbn [state fst snd files set_monitor].
    destruct (for_each_transmit_run (sensor_buffer (monitor s)) s)
      as (_ & _ & ->).
    apply apply_appends_prefix.
  - intros fs. by apply (blind_flush_buffer t (with_files fs s) s).
Qed.

(** C4, as the code has it: the narrowband attempt looks at no size.  It
    answers [True] when [lora.send] returns and [False] when it raises,
    whatever was raised and whatever the length of the payload; after a
    [False] the reading goes on to the HTTP channel when [wifi_fallback] is
    set, and the radio is not tried again for it. *)
Theorem narrowband_attempt_is_boolean data s :
  lora (monitor s) = true →
  let payload := compress_sensor_data data in
  transmit_via_lora E data s =
    match lora_send E (clock s) payload with
    | None => (Ok true, tick s, [EvLoraSend payload None])
    | Some e =>
        (Ok false, tick (tick s),
         [EvLoraSend payload (Some e);
          EvLog ERROR ("LoRaWAN transmission failed: " ++ exn_str e)])
    end ∧
  ∀ tc e,
    transmission (config (monitor s)) = Some tc →
    lora_enabled tc = Some true →
    wifi_fallback tc = Some true →
    lora_send E (clock s) payload = Some e →
    attempts (events (transmit_data E data s)) = [Narrowband; IPBased] ∨
    attempts (events (transmit_data E data s))
      = [Narrowband; IPBased; LocalFile].
Proof.
  intros Hlora. cbn zeta. split; [by apply transmit_via_lora_run|].
  intros tc e Htc Hen Hwifi Hsend. revert Hlora Htc Hen Hwifi Hsend.
  run (transmit_data E data) s; intros; simplify_eq; try congruence; cbn; auto.
Qed.


(** C6: the reduced encoding is a function of the bindings of the reading
    alone: two readings that are equal as dictionaries, in whatever order
    their keys were inserted, have the same payload, byte for byte (and so
    has one reading encoded twice). *)
Theorem encoding_deterministic d1 d2 :
  dict_equal d1 d2 → compress_sensor_data d1 = compress_sensor_data d2.
Proof.
  intros Heq. apply compress_ext. intros k _.
  unfold dict_get_default. by rewrite (Heq k).
Qed.


(** C8: an iteration of the monitoring loop returns whatever happens in its
    body; when the body raises, the error is logged, the loop sleeps 60
    seconds, and the next iteration runs from the state the failed one
    left.  So the loop is still running after any number of iterations. *)
Theorem monitoring_loop_survives_errors i s :
  result (loop_iteration E i s) = Ok tt ∧
  (∀ e,
     result (iteration_body E i s) = Raise e →
     events (loop_iteration E i s)
       = (events (iteration_body E i s) ++
          [EvLog ERROR ("Monitoring loop error: " ++ exn_str e);
           EvSleep 60000])%list) ∧
  (∀ n,
     result (loop_from E i (S n) s) = Ok tt ∧
     events (loop_from E i (S n) s)
       = (events (loop_iteration E i s) ++
          events (loop_from E (S i) n (state (loop_iteration E i s))))%list) ∧
  (∀ n, result (run_monitoring_loop E n s) = Ok tt).
Proof.
  split_and!.
  - apply loop_iteration_returns.
  - intros e Hbody. unfold loop_iteration.
    by rewrite (try_except_Raise_run _ _ _ _ Hbody).
  - intros n. split; [apply loop_from_returns|].
    cbn [loop_from].
    by rewrite (bind_Ok_run _ _ _ _ (loop_iteration_returns i s)).
  - intros n. unfold run_monitoring_loop, log.
    rewrite (bind_Ok_run (emit _) _ s tt eq_refl).
    apply loop_from_returns.
Qed.

(** C9, as the code has it: a priority field that the reading does not have
    is given the integer 0 in the reduced encoding, so the payload is the
    one of the reading in which that field is the integer 0, and no other:
    a value that [json.dumps] prints otherwise than the integer 0, set in
    place of the missing field, gives another payload.  A float zero, which
    Python prints [0.0], is such a value. *)
Theorem reduced_encoding_zero_for_missing data field key :
  (field, key) ∈ priority_fields →
  dict_get data field = None →
  dict_get (essential_data data) key = Some (VInt 0) ∧
  compress_sensor_data data
    = compress_sensor_data (dict_set data field (VInt 0)) ∧
  (∀ v, json_dumps_value v ≠ json_dumps_value (VInt 0) →
        compress_sensor_data (dict_set data field v)
          ≠ compress_sensor_data data).
Proof.
  intros Hin Hnone. split_and!.
  - unfold priority_fields in Hin.
    repeat (apply elem_of_cons in Hin as [Hin|Hin];
            [simplify_eq; cbn; unfold dict_get_default; by rewrite Hnone|]).
    by apply not_elem_of_nil in Hin.
  - apply compress_ext. intros k _. unfold dict_get_default.
    destruct (decide (field = k)) as [->|Hne].
    + by rewrite dict_get_set_eq, Hnone.
    + by rewrite dict_get_set_ne.
  - intros v Hv. apply (compress_sensitive _ _ field key Hin).
    + intros f _ Hf. by apply dict_get_default_set_ne.
    + unfold dict_get_default. by rewrite dict_get_set_eq, Hnone.
Qed.

(** C10: [transmit_data] returns, whatever the reading, the configuration,
    the radio, the endpoint and the file system do; so do the two channels,
    with a boolean, and the local store. *)
Theorem transmit_data_never_raises data s :
  result (transmit_data E data s) = Ok tt ∧
  (∃ b, result (transmit_via_lora E data s) = Ok b) ∧
  (∃ b, result (transmit_via_http E data s) = Ok b) ∧
  result (store_locally E data s) = Ok tt.
Proof.
  split_and!.
  - apply transmit_data_returns.
  - run (transmit_via_lora E data) s; eauto.
  - run (transmit_via_http E data) s; eauto.
  - by run (store_locally E data) s.
Qed.

End Proofs.

(* ===================================================================== *)
(** * Further properties of the monitor *)
(* ===================================================================== *)

Section More.
Context {L : PyLib}.
Variable E : Env.

(** X1: [transmit_data] never keeps a reading twice.  In the events of one
    call exactly one attempt keeps the reading (a channel took it, or it was
    appended to the day file), or none does, and then the append raised and
    the failure was logged. *)
Theorem transmit_data_keeps_exactly_once data s :
  let tr := events (transmit_data E data s) in
  length (List.filter kept tr) = 1%nat ∨
  (length (List.filter kept tr) = 0%nat ∧ discarded_with_log data tr).
Proof.
  cbn zeta. unfold discarded_with_log.
  run (transmit_data E data) s; cbn [List.filter]; unfold kept, succeeded;
    use_status; cbn -[String.append];
    first [ by left
          | right; split; [done|]; do 2 eexists; split; solve [solve_elem] ].
Qed.

(** X2: without a [transmission] section in the configuration,
    [transmit_data] logs the [KeyError] as a failed transmission and goes
    straight to the day file: no channel is tried. *)
Theorem transmission_section_missing data s :
  transmission (config (monitor s)) = None →
  events (transmit_data E data s)
    = EvLog ERROR ("Data transmission failed: "
                   ++ exn_str (KeyError "transmission"))
      :: events (store_locally E data (tick s)) ∧
  attempts (events (transmit_data E data s)) = [LocalFile].
Proof.
  intros Hmiss. revert Hmiss.
  run (transmit_data E data) s; intros; simplify_eq; try congruence;
    cbn [monitor clock files tick];
    repeat match goal with
           | H : ?x = _ |- context [?x] => rewrite H
           end; done.
Qed.

(** X3: an HTTP answer with a status other than 200 is no delivery.  With
    the radio absent, the reading is posted once, then it is stored locally
    and the warning is logged; nothing is logged about the status. *)
Theorem http_status_other_than_200_falls_through data s tc code :
  lora (monitor s) = false →
  transmission (config (monitor s)) = Some tc →
  wifi_fallback tc = Some true →
  requests_post E (clock s)
    (api_endpoint (monitor s) ++ "/api/v1/sensor-data") data = Ok code →
  code ≠ 200 →
  events (transmit_data E data s)
    = EvHttpPost (api_endpoint (monitor s) ++ "/api/v1/sensor-data") data
                 (Ok code)
      :: (events (store_locally E data (tick s)) ++
          [EvLog WARNING "💾 Data stored locally - transmission failed"])%list.
Proof.
  intros Hlora Htc Hwifi Hpost Hcode. revert Hlora Htc Hwifi Hpost Hcode.
  run (transmit_data E data) s; intros; simplify_eq; try congruence;
    use_status; try congruence;
    match goal with
    | H1 : requests_post _ _ _ _ = _, H2 : requests_post _ _ _ _ = _ |- _ =>
        rewrite H1 in H2; simplify_eq
    end;
    cbn [monitor clock files tick];
    repeat match goal with
           | H : ?x = _ |- context [?x] => rewrite H
           end; reflexivity.
Qed.

(** X4: the warning that the data was stored locally is logged also when
    the append raised.  With no channel to try and a disk that refuses every
    append, [transmit_data] logs the storage error, then the warning, and
    the files are as before. *)
Theorem stored_locally_warning_despite_failure data s tc e :
  lora (monitor s) = false →
  transmission (config (monitor s)) = Some tc →
  wifi_fallback tc = Some false →
  (∀ n path text, file_append E n path text = Some e) →
  events (transmit_data E data s)
    = [ EvFileAppend (local_data_path (now E (clock s)))
                     (json_dumps data ++ newline) (Some e);
        EvLog ERROR ("Local storage failed: " ++ exn_str e);
        EvLog WARNING "💾 Data stored locally - transmission failed" ] ∧
  files (state (transmit_data E data s)) = files s.
Proof.
  intros Hlora Htc Hwifi Hdisk. revert Hlora Htc Hwifi.
  run (transmit_data E data) s; intros; simplify_eq; try congruence;
    repeat match goal with
           | H : file_append _ _ _ _ = _ |- _ => rewrite Hdisk in H
           end; by simplify_eq.
Qed.

(** When no channel delivers and the disk takes every append, one reading
    goes to the day file. *)
Lemma transmit_data_spools_when_undeliverable data s day :
  (∀ n payload, lora_send E n payload ≠ None) →
  (∀ n url body, requests_post E n url body ≠ Ok 200) →
  (∀ n path text, file_append E n path text = None) →
  (∀ n, strftime_Ymd (now E n) = day) →
  files (state (transmit_data E data s))
    = <[ day_path day
         := (files s !!! day_path day ++ [spool_line data])%list ]>
        (files s).
Proof.
  intros Hlora Hhttp Hdisk Hday.
  run (transmit_data E data) s; use_status;
    repeat match goal with
           | H : file_append _ _ _ _ = _ |- _ => rewrite Hdisk in H
           | H : lora_send _ _ _ = None |- _ => by apply Hlora in H
           | H : requests_post _ _ _ _ = Ok 200 |- _ => by apply Hhttp in H
           end; simplify_eq;
    unfold local_data_path, day_path, spool_line; by rewrite Hday.
Qed.

(** X5: when no channel delivers and the disk takes every append, a flush
    appends one line for each reading of the buffer to the file of the day,
    in the order of the buffer and after what the file held; no other file
    changes. *)
Theorem undeliverable_buffer_is_spooled_in_order t s day :
  (∀ n payload, lora_send E n payload ≠ None) →
  (∀ n url body, requests_post E n url body ≠ Ok 200) →
  (∀ n path text, file_append E n path text = None) →
  (∀ n, strftime_Ymd (now E n) = day) →
  let path := day_path day in
  let o := flush_buffer E t s in
  files (state o) !!! path
    = (files s !!! path ++
       map spool_line (sensor_buffer (monitor s)))%list ∧
  ∀ other, other ≠ path → files (state o) !!! other = files s !!! other.
Proof.
  intros Hlora Hhttp Hdisk Hday. cbn zeta.
  rewrite flush_buffer_run. cbn [state fst snd files set_monitor].
  generalize (sensor_buffer (monitor s)) as buf. intros buf. revert s.
  induction buf as [|data buf IH]; intros s.
  - cbn. by rewrite app_nil_r.
  - cbn [for_each].
    destruct (transmit_data_returns E data s) as (Hr & _ & _).
    rewrite (bind_Ok_run _ _ _ _ Hr). cbn [state fst snd].
    destruct (IH (state (transmit_data E data s))) as [Hpath Hother].
    rewrite (transmit_data_spools_when_undeliverable data s day) in Hpath, Hother
      by done.
    split.
    + rewrite Hpath, lookup_total_insert_eq. cbn [map].
      by rewrite <- app_assoc.
    + intros other Hne. rewrite Hother by done.
      by rewrite lookup_total_insert_ne.
Qed.
Lemma quiet_ret {A} (a : A) : quiet (ret a).
Proof. by intros s. Qed.
Lemma quiet_raise {A} e : quiet (@raise A e).
Proof. by intros s. Qed.
Lemma quiet_lift {A} (r : pyresult A) : quiet (lift r).
Proof. by intros s. Qed.
Lemma quiet_get_self : quiet get_self.
Proof. by intros s. Qed.
Lemma quiet_datetime_now : quiet (datetime_now E).
Proof. by intros s. Qed.
Lemma quiet_emit ev : is_local ev → quiet (emit ev).
Proof. intros Hev s. split; [by repeat constructor|done]. Qed.
Lemma quiet_bind {A B} (m : M A) (k : A → M B) :
  quiet m → (∀ a, quiet (k a)) → quiet (bind m k).
Proof.
  intros Hm Hk s. destruct (Hm s) as (He & Hf & Hmon).
  unfold bind, events, state in *.
  destruct (m s) as [[[a|e] s1] t1]; simpl in *; [|done].
  destruct (Hk a s1) as (He' & Hf' & Hmon'). unfold events, state in *.
  destruct (k a s1) as [[r s2] t2]; simpl in *.
  split_and!; [by apply Forall_app|congruence..].
Qed.
Lemma quiet_try_except {A} (m : M A) h :
  quiet m → (∀ e, quiet (h e)) → quiet (try_except m h).
Proof.
  intros Hm Hk s. destruct (Hm s) as (He & Hf & Hmon).
  unfold try_except, events, state in *.
  destruct (m s) as [[[a|e] s1] t1]; simpl in *; [done|].
  destruct (Hk e s1) as (He' & Hf' & Hmon'). unfold events, state in *.
  destruct (h e s1) as [[r s2] t2]; simpl in *.
  split_and!; [by apply Forall_app|congruence..].
Qed.
(** A handler that never runs does not count. *)
Lemma quiet_try_except_total {A} (m : M A) h :
  quiet m → (∀ s, ∃ a, result (m s) = Ok a) → quiet (try_except m h).
Proof.
  intros Hm Htot s. destruct (Htot s) as [a Ha].
  rewrite (try_except_Ok_run _ _ _ _ Ha). apply Hm.
Qed.

Ltac quiet_step :=
  lazymatch goal with
  | |- quiet (bind _ _) => apply quiet_bind
  | |- quiet (try_except _ _) => apply quiet_try_except
  | |- quiet (ret _) => apply quiet_ret
  | |- quiet (raise _) => apply quiet_raise
  | |- quiet (lift _) => apply quiet_lift
  | |- quiet get_self => apply quiet_get_self
  | |- quiet (datetime_now _) => apply quiet_datetime_now
  | |- quiet (log _ _) => by apply quiet_emit
  | |- quiet (sleep _) => by apply quiet_emit
  | |- quiet (if ?b then _ else _) => destruct b
  | |- quiet (match ?x with _ => _ end) => destruct x
  | |- ∀ _, _ => intro
  end.

Lemma quiet_read_sensors_body W r : quiet (read_sensors_body W r).
Proof.
  unfold read_sensors_body, read_dht, read_weight, read_internal_temp,
    analyze_sound, count_bees.
  repeat quiet_step.
Qed.

Lemma quiet_read_sensors W : quiet (read_sensors E W).
Proof.
  unfold read_sensors.
  apply quiet_bind; [apply quiet_get_self|]. intros self.
  apply quiet_bind; [apply quiet_datetime_now|]. intros t. cbv zeta.
  apply quiet_try_except_total; [apply quiet_read_sensors_body|].
  intros s'. eexists. apply read_sensors_body_returns.
Qed.

Lemma local_events_no_attempt tr : Forall is_local tr → attempts tr = [].
Proof.
  induction 1 as [|ev tr Hev _ IH]; [done|].
  unfold attempts in *. cbn. rewrite IH. by destruct ev as [| | |[]|].
Qed.

(** X6: [read_sensors] stays on the device.  Its events are log lines below
    the level of an error and pauses: it sends nothing, writes no file and
    leaves the monitor object, its buffer included, as it is. *)
Theorem read_sensors_only_logs_and_sleeps W s :
  Forall is_local (events (read_sensors E W s)) ∧
  attempts (events (read_sensors E W s)) = [] ∧
  files (state (read_sensors E W s)) = files s ∧
  monitor (state (read_sensors E W s)) = monitor s.
Proof.
  destruct (quiet_read_sensors W s) as (He & Hf & Hm).
  split_and!; try done. by apply local_events_no_attempt.
Qed.

(** X7: the keys of the reading [read_sensors] returns are distinct and come
    in one fixed order, whatever the sensors did: the timestamp and the hive
    id first, then the keys that were measured, in the order of
    [reading_keys]. *)
Theorem read_sensors_key_order W s :
  ∃ readings,
    result (read_sensors E W s) = Ok readings ∧
    dict_keys readings `sublist_of` reading_keys ∧
    NoDup (dict_keys readings) ∧
    take 2 (dict_keys readings) = ["timestamp"; "hive_id"].
Proof.
  exists (snapshot (monitor s) W (now E (clock s))).
  split; [apply read_sensors_returns|].
  assert (Hnodup : NoDup reading_keys)
    by (apply (bool_decide_unpack (NoDup reading_keys)); vm_compute; exact I).
  unfold snapshot.
  destruct (dht_measured (monitor s) W) as [[t h]|],
    (weight_measured (monitor s) W) as [w|],
    (internal_measured (monitor s) W) as [ti|],
    (sound_measured (monitor s) W) as [[[db hz] act]|],
    (bees_measured (monitor s) W) as [n|];
    (split_and!;
     [ vm_compute;
       repeat first [ apply sublist_nil | apply sublist_skip
                    | apply sublist_cons ]
     | eapply sublist_NoDup; [exact Hnodup|]; vm_compute;
       repeat first [ apply sublist_nil | apply sublist_skip
                    | apply sublist_cons ]
     | reflexivity ]).
Qed.

Lemma bind_Raise_run' {A B} (m : M A) (k : A → M B) s e :
  result (m s) = Raise e →
  bind m k s = (Raise e, state (m s), events (m s)).
Proof.
  unfold bind, result, state, events.
  destruct (m s) as [[r s1] t1]; simpl. by intros ->.
Qed.

(** ** One iteration, step by step *)

Lemma interval_lookup_run s :
  config_transmission "interval_minutes" interval_minutes s
    = (interval_lookup (monitor s), s, []).
Proof.
  unfold config_transmission, interval_lookup, bind, get_self, raise, ret.
  destruct (transmission (config (monitor s))) as [tc|]; [|done].
  by destruct (interval_minutes tc).
Qed.

Lemma iteration_body_run i s :
  iteration_body E i s =
    match interval_lookup (monitor s) with
    | Raise e =>
        (Raise e, at_check E i s, events (read_sensors E (sensors E i) s))
    | Ok minutes =>
        if flush_due E i s minutes then
          (Ok tt,
           tick (state (flush_buffer E (check_time E i s) (at_check E i s))),
           (events (read_sensors E (sensors E i) s) ++
            events (flush_buffer E (check_time E i s) (at_check E i s)) ++
            [EvSleep 30000])%list)
        else
          (Ok tt, tick (at_check E i s),
           (events (read_sensors E (sensors E i) s) ++ [EvSleep 30000])%list)
    end.
Proof.
  unfold iteration_body, flush_due, check_time, at_check, buffered.
  destruct (read_sensors_returns E (sensors E i) s) as [Hr Hm].
  rewrite (bind_Ok_run _ _ _ _ Hr).
  set (s1 := state (read_sensors E (sensors E i) s)) in *.
  rewrite (bind_Ok_run get_self _ s1 _ eq_refl).
  cbn [result state events fst snd get_self].
  rewrite (bind_Ok_run (put_self _) _ s1 tt eq_refl).
  cbn [result state events fst snd put_self].
  rewrite (bind_Ok_run (datetime_now E) _ _ _ eq_refl).
  cbn [result state events fst snd datetime_now].
  rewrite (bind_Ok_run get_self _ _ _ eq_refl).
  cbn [result state events fst snd get_self].
  rewrite Hm. cbn [monitor clock tick set_monitor last_transmission set_buffer].
  destruct (interval_lookup (monitor s)) as [minutes|e] eqn:Hint.
  - rewrite (bind_Ok_run (config_transmission _ _) _ _ minutes);
      [|rewrite interval_lookup_run; exact Hint].
    rewrite interval_lookup_run. cbn [result state events fst snd].
    destruct (bool_decide _) eqn:Hdue.
    + rewrite (bind_Ok_run (flush_buffer E _) _ _ tt);
        [|by rewrite flush_buffer_run].
      by cbn [result state events fst snd sleep emit app].
    + by cbn [result state events fst snd sleep emit app bind ret].
  - rewrite (bind_Raise_run' (config_transmission _ _) _ _ e);
      [|rewrite interval_lookup_run; exact Hint].
    rewrite interval_lookup_run. cbn [result state events fst snd app].
    by rewrite ?app_nil_r.
Qed.

Lemma loop_iteration_run i s :
  loop_iteration E i s =
    match interval_lookup (monitor s) with
    | Raise e =>
        (Ok tt, tick (tick (at_check E i s)),
         (events (read_sensors E (sensors E i) s) ++
          [EvLog ERROR ("Monitoring loop error: " ++ exn_str e);
           EvSleep 60000])%list)
    | Ok _ => iteration_body E i s
    end.
Proof.
  unfold loop_iteration.
  destruct (interval_lookup (monitor s)) as [minutes|e] eqn:Hint.
  - apply (try_except_Ok_run _ _ _ tt).
    rewrite iteration_body_run, Hint. by destruct (flush_due E i s minutes).
  - rewrite (try_except_Raise_run _ _ _ e);
      [|by rewrite iteration_body_run, Hint].
    by rewrite iteration_body_run, Hint.
Qed.

Lemma interval_lookup_Ok m tc minutes :
  transmission (config m) = Some tc → interval_minutes tc = Some minutes →
  interval_lookup m = Ok minutes.
Proof. unfold interval_lookup. by intros -> ->. Qed.

(** After an iteration the buffer holds the new reading after the old ones,
    or the flush emptied it. *)
Lemma loop_iteration_monitor i s :
  monitor (state (loop_iteration E i s)) = buffered E i s ∨
  monitor (state (loop_iteration E i s))
    = set_last_transmission (check_time E i s) (set_buffer [] (buffered E i s)).
Proof.
  rewrite loop_iteration_run.
  destruct (interval_lookup (monitor s)) as [minutes|e] eqn:Hint;
    [|by left].
  rewrite iteration_body_run, Hint.
  destruct (flush_due E i s minutes); [right|by left].
  by rewrite flush_buffer_run.
Qed.

Lemma same_setup_refl m : same_setup m m.
Proof. by repeat split. Qed.

Lemma same_setup_trans m1 m2 m3 :
  same_setup m1 m2 → same_setup m2 m3 → same_setup m1 m3.
Proof. unfold same_setup. intros ? ?. destruct_and!. split_and!; congruence. Qed.

Lemma loop_iteration_same_setup i s :
  same_setup (monitor (state (loop_iteration E i s))) (monitor s).
Proof.
  destruct (loop_iteration_monitor i s) as [-> | ->]; by repeat split.
Qed.

Lemma loop_from_unroll i n s :
  loop_from E i (S n) s =
    (result (loop_from E (S i) n (state (loop_iteration E i s))),
     state (loop_from E (S i) n (state (loop_iteration E i s))),
     (events (loop_iteration E i s) ++
      events (loop_from E (S i) n (state (loop_iteration E i s))))%list).
Proof.
  cbn [loop_from].
  by rewrite (bind_Ok_run _ _ _ tt (loop_iteration_returns E i s)).
Qed.

(** X8: an iteration at which the interval has not passed appends its
    reading to the buffer and does nothing else: no attempt to send or
    store, the files and the time of the last transmission as before.  The
    elapsed time is one that [total_seconds()] gives to within less than a
    microsecond, so the float the source compares is below the interval
    as well. *)
Theorem iteration_below_interval_only_buffers i s tc minutes :
  transmission (config (monitor s)) = Some tc →
  interval_minutes tc = Some minutes →
  within_float_precision (check_time E i s - last_transmission (monitor s)) →
  check_time E i s - last_transmission (monitor s) < microseconds (minutes * 60) →
  let o := loop_iteration E i s in
  sensor_buffer (monitor (state o))
    = (sensor_buffer (monitor s)
       ++ [snapshot (monitor s) (sensors E i) (now E (clock s))])%list ∧
  last_transmission (monitor (state o)) = last_transmission (monitor s) ∧
  attempts (events o) = [] ∧
  files (state o) = files s.
Proof.
  intros Htc Hmin _ Hlt. cbn zeta.
  rewrite loop_iteration_run, (interval_lookup_Ok _ _ _ Htc Hmin).
  rewrite iteration_body_run, (interval_lookup_Ok _ _ _ Htc Hmin).
  unfold flush_due. rewrite bool_decide_eq_false_2 by lia.
  destruct (quiet_read_sensors (sensors E i) s) as (He & Hf & Hm).
  cbn [state events fst snd monitor files tick at_check set_monitor].
  split_and!; try done.
  unfold attempts. rewrite omap_app. fold (attempts (events (read_sensors E (sensors E i) s))).
  by rewrite (local_events_no_attempt _ He).
Qed.

(** X9: an iteration at which the interval has passed flushes the buffer
    together with the reading it has just taken.  Every one of them is
    accounted for in the events, in order; the buffer is left empty, and the
    time of the last transmission is the time that was compared, not the
    time the flush ended. *)
Theorem iteration_at_interval_flushes i s tc minutes :
  transmission (config (monitor s)) = Some tc →
  interval_minutes tc = Some minutes →
  check_time E i s - last_transmission (monitor s) >= microseconds (minutes * 60) →
  let o := loop_iteration E i s in
  let reading := snapshot (monitor s) (sensors E i) (now E (clock s)) in
  sensor_buffer (monitor (state o)) = [] ∧
  last_transmission (monitor (state o)) = check_time E i s ∧
  ∃ segs,
    events o = (events (read_sensors E (sensors E i) s) ++
                concat segs ++ [EvSleep 30000])%list ∧
    Forall2 accounted (sensor_buffer (monitor s) ++ [reading])%list segs.
Proof.
  intros Htc Hmin Hge. cbn zeta.
  rewrite loop_iteration_run, (interval_lookup_Ok _ _ _ Htc Hmin).
  rewrite iteration_body_run, (interval_lookup_Ok _ _ _ Htc Hmin).
  unfold flush_due. rewrite bool_decide_eq_true_2 by lia.
  rewrite flush_buffer_run.
  cbn [state events fst snd monitor files tick set_monitor].
  split_and!; try done.
  destruct (for_each_transmit_segments E accounted
              (sensor_buffer (monitor (at_check E i s))) (at_check E i s))
    as (segs & Hev & Hall); [apply transmit_data_accounted|].
  exists segs. by rewrite Hev.
Qed.

(** X10: with a configuration that has no [interval_minutes], the loop goes
    on but never flushes: after [n] iterations the buffer holds [n] more
    readings, nothing was sent or stored, and the files are as before. *)
Theorem loop_without_interval_only_buffers i n s :
  (∀ tc, transmission (config (monitor s)) = Some tc →
         interval_minutes tc = None) →
  let o := loop_from E i n s in
  result o = Ok tt ∧
  length (sensor_buffer (monitor (state o)))
    = (length (sensor_buffer (monitor s)) + n)%nat ∧
  attempts (events o) = [] ∧
  files (state o) = files s.
Proof.
  intros Hmiss. cbn zeta. revert i s Hmiss.
  induction n as [|n IH]; intros i s Hmiss.
  { cbn. split_and!; try done; lia. }
  assert (Hint : ∃ e, interval_lookup (monitor s) = Raise e).
  { unfold interval_lookup.
    destruct (transmission (config (monitor s))) as [tc|] eqn:Htc; [|eauto].
    rewrite (Hmiss tc eq_refl). eauto. }
  destruct Hint as [e Hint].
  rewrite loop_from_unroll. cbn [result state events fst snd].
  pose proof (loop_iteration_run i s) as Hrun. rewrite Hint in Hrun.
  destruct (quiet_read_sensors (sensors E i) s) as (He & Hf & Hm).
  destruct (IH (S i) (state (loop_iteration E i s))) as (Hr & Hlen & Hatt & Hfiles).
  { rewrite Hrun. cbn [state fst snd monitor tick at_check set_monitor].
    exact Hmiss. }
  split_and!.
  - done.
  - rewrite Hlen, Hrun.
    cbn [state fst snd monitor tick at_check set_monitor buffered set_buffer sensor_buffer].
    rewrite length_app. cbn. lia.
  - unfold attempts in *. rewrite omap_app, Hatt, Hrun.
    cbn [events snd]. rewrite omap_app.
    fold (attempts (events (read_sensors E (sensors E i) s))).
    by rewrite (local_events_no_attempt _ He).
  - rewrite Hfiles, Hrun.
    by cbn [state fst snd files tick at_check set_monitor].
Qed.

(** X11: the monitoring loop changes the buffer and the time of the last
    transmission only: the configuration, the identity, the drivers and the
    model are after any number of iterations what they were. *)
Theorem loop_keeps_the_setup n s :
  same_setup (monitor (state (run_monitoring_loop E n s))) (monitor s).
Proof.
  unfold run_monitoring_loop, log.
  rewrite (bind_Ok_run (emit _) _ s tt eq_refl).
  cbn [result state events fst snd emit].
  change (monitor s) with (monitor (tick s)).
  generalize (tick s) as s0. generalize 0%nat as i.
  induction n as [|n IH]; intros i s0; [apply same_setup_refl|].
  rewrite loop_from_unroll. cbn [state fst snd].
  eapply same_setup_trans; [apply IH|apply loop_iteration_same_setup].
Qed.

Lemma snapshot_stamped m W t : stamped (hive_id m) (snapshot m W t).
Proof.
  unfold stamped, snapshot.
  destruct (dht_measured m W) as [[? ?]|], (weight_measured m W),
    (internal_measured m W), (sound_measured m W) as [[[? ?] ?]|],
    (bees_measured m W); split; try reflexivity; by eexists.
Qed.

(** X12: every reading the loop leaves in the buffer carries the id of this
    hive and a timestamp, if those it started with do. *)
Theorem buffered_readings_are_stamped n s :
  Forall (stamped (hive_id (monitor s))) (sensor_buffer (monitor s)) →
  Forall (stamped (hive_id (monitor s)))
         (sensor_buffer (monitor (state (run_monitoring_loop E n s)))).
Proof.
  unfold run_monitoring_loop, log.
  rewrite (bind_Ok_run (emit _) _ s tt eq_refl).
  cbn [result state events fst snd emit].
  change (monitor s) with (monitor (tick s)).
  generalize (tick s) as s0. generalize 0%nat as i.
  induction n as [|n IH]; intros i s0 Hall; [done|].
  rewrite loop_from_unroll. cbn [state fst snd].
  destruct (loop_iteration_same_setup i s0) as (_ & Hid & _).
  rewrite <- Hid. apply IH. rewrite Hid.
  destruct (loop_iteration_monitor i s0) as [-> | ->]; cbn; [|done].
  apply Forall_app. split; [done|]. repeat constructor; apply snapshot_stamped.
Qed.
End More.

(* ===================================================================== *)
(** * Start-up and the entry point *)
(* ===================================================================== *)

Ltac unfold_startup :=
  cbv [initialize_sensors load_bee_counter_model assign call
       config_sensors] in *;
  unfold_prims.

Ltac norm_startup Hyp :=
  cbn [monitor clock files tick set_monitor write_file config
       set_camera set_dht_sensor set_weight_sensor set_temp_sensor set_lora
       set_bee_counter_model with_thermometer picamera2_new
       camera_create_still_configuration camera_configure camera_start
       dht22_new hx711_new hx711_set_scale hx711_tare w1thermsensor_new
       lora_new camera_stop] in Hyp;
  cbv beta iota in Hyp.

(** Runs a computation of the start-up from [s], one goal for each path. *)
Ltac run_startup comp s :=
  let o := fresh "o" in
  let Ho := fresh "Ho" in
  remember (comp s) as o eqn:Ho;
  destruct s as [?m ?c ?fs]; unfold_startup; run_cases Ho;
  subst o; cbn [result state events fst snd monitor clock files] in *.

Section StartupProofs.
Context {L : PyLib}.
Variable E : Env.
Variable sc : SensorsConfig.
Variable H : Hardware.

(** ** What the loop keeps in the buffer *)

Lemma loop_from_buffer_invariant (P : Dict → Prop) n i s :
  (∀ m W t, same_setup m (monitor s) → P (snapshot m W t)) →
  Forall P (sensor_buffer (monitor s)) →
  Forall P (sensor_buffer (monitor (state (loop_from E i n s)))).
Proof.
  revert i s. induction n as [|n IH]; intros i s Hnew Hall; [done|].
  rewrite loop_from_unroll. cbn [state fst snd].
  apply IH.
  - intros m W t Hm. apply Hnew.
    eapply same_setup_trans; [exact Hm|apply loop_iteration_same_setup].
  - destruct (loop_iteration_monitor E i s) as [-> | ->]; cbn; [|done].
    apply Forall_app. split; [done|].
    repeat constructor. apply Hnew, same_setup_refl.
Qed.

Lemma run_monitoring_loop_buffer_invariant (P : Dict → Prop) n s :
  (∀ m W t, same_setup m (monitor s) → P (snapshot m W t)) →
  Forall P (sensor_buffer (monitor s)) →
  Forall P (sensor_buffer (monitor (state (run_monitoring_loop E n s)))).
Proof.
  intros Hnew Hall. unfold run_monitoring_loop, log.
  rewrite (bind_Ok_run (emit _) _ s tt eq_refl).
  cbn [result state events fst snd emit].
  by apply loop_from_buffer_invariant.
Qed.

Lemma snapshot_without_dht m W t :
  dht_sensor m = false → without_dht (snapshot m W t).
Proof.
  intros Hoff. unfold without_dht, snapshot, dht_measured. rewrite Hoff.
  destruct (weight_measured m W), (internal_measured m W),
    (sound_measured m W) as [[[? ?] ?]|], (bees_measured m W);
    split; reflexivity.
Qed.

(** ** Start-up *)

(** What [initialize_sensors] leaves alone, whatever happens. *)
Lemma initialize_sensors_frame s :
  let o := initialize_sensors sc H s in
  sensor_buffer (monitor (state o)) = sensor_buffer (monitor s) ∧
  files (state o) = files s ∧
  attempts (events o) = [] ∧
  (temperature_enabled sc = Some false →
   dht_sensor (monitor (state o)) = dht_sensor (monitor s)).
Proof.
  cbn zeta.
  run_startup (initialize_sensors sc H) s;
    (split_and!; [done|done|done|]);
    first [ done | intros; congruence ].
Qed.

(** X13: when [initialize_sensors] raises, the last thing it did was to log
    that exception as a failed initialization, and the model was not
    touched: an exception leaves before the model is loaded. *)
Theorem initialize_sensors_failure_is_logged s e :
  result (initialize_sensors sc H s) = Raise e →
  (∃ pre, events (initialize_sensors sc H s)
          = (pre ++ [EvLog ERROR ("Sensor initialization failed: "
                                  ++ exn_str e)])%list) ∧
  bee_counter_model (monitor (state (initialize_sensors sc H s)))
    = bee_counter_model (monitor s).
Proof.
  run_startup (initialize_sensors sc H) s; intros Hr; simplify_eq;
    (split; [|done]);
    match goal with
    | |- ∃ pre, ?tr = _ => exists (removelast tr); reflexivity
    end.
Qed.

(** X14: a start-up that returns, from the monitor as [__init__] leaves it,
    has read every [enabled] entry and created the drivers the configuration
    enables and no other; the thermometer is there when its constructor
    returned; the model is loaded; configuration and identity are as
    before. *)
Theorem start_up_creates_the_enabled_drivers s :
  no_drivers (monitor s) →
  result (initialize_sensors sc H s) = Ok tt →
  let m' := monitor (state (initialize_sensors sc H s)) in
  camera_enabled sc = Some (camera m') ∧
  temperature_enabled sc = Some (dht_sensor m') ∧
  weight_enabled sc = Some (weight_sensor m') ∧
  temp_sensor m' = bool_decide (w1thermsensor_new H = None) ∧
  (∃ tc, transmission (config (monitor s)) = Some tc ∧
         lora_enabled tc = Some (lora m')) ∧
  bee_counter_model m' = Some "YOLOv8_bee_counter_v1.tflite" ∧
  config m' = config (monitor s) ∧
  hive_id m' = hive_id (monitor s).
Proof.
  intros Hfresh. revert Hfresh. unfold no_drivers.
  run_startup (initialize_sensors sc H) s; intros Hfresh Hr; simplify_eq;
    destruct Hfresh as (? & ? & ? & ? & ? & ?);
    cbn in *;
    repeat match goal with
           | Hw : w1thermsensor_new H = _ |- _ => rewrite Hw; clear Hw
           end;
    split_and!;
    first [ congruence | by eexists; split; [eassumption|congruence] ].
Qed.

(** X15: a thermometer that is not there does not stop start-up.  When the
    start-up returns with a thermometer, it returns without one as well, to
    the same monitor except that [temp_sensor] stays as it was, and the
    warning is logged. *)
Theorem missing_thermometer_is_tolerated s e :
  let good := initialize_sensors sc (with_thermometer None H) s in
  let bad := initialize_sensors sc (with_thermometer (Some e) H) s in
  result good = Ok tt →
  result bad = Ok tt ∧
  monitor (state bad)
    = set_temp_sensor (temp_sensor (monitor s)) (monitor (state good)) ∧
  EvLog WARNING ("Internal temp sensor not available: " ++ exn_str e)
    ∈ events bad.
Proof.
  cbn zeta.
  remember (initialize_sensors sc (with_thermometer None H) s) as good eqn:Hg.
  remember (initialize_sensors sc (with_thermometer (Some e) H) s) as bad
    eqn:Hb.
  destruct s as [m c fs]. unfold_startup.
  norm_startup Hg; norm_startup Hb.
  repeat (case_innermost Hg; norm_startup Hg; norm_startup Hb).
  all: cbn [app] in *; subst;
    cbn [result state events fst snd monitor clock files].
  all: intros Hok; try discriminate.
  all: split; [done|].
  all: split; [by destruct m|].
  all: solve_elem.
Qed.

(** ** The entry point *)

Lemma main_failed_run n s e :
  result (initialize_sensors sc H s) = Raise e →
  main E sc H n s =
    let o := initialize_sensors sc H s in
    if camera (monitor (state o)) then
      match camera_stop H with
      | None => (Ok tt, tick (tick (state o)),
                 (events o ++ [fatal_error e; shutdown_complete])%list)
      | Some e' => (Raise e', tick (state o),
                    (events o ++ [fatal_error e])%list)
      end
    else (Ok tt, tick (tick (state o)),
          (events o ++ [fatal_error e; shutdown_complete])%list).
Proof.
  unfold main, shutdown, call, fatal_error, shutdown_complete.
  unfold bind, try_except, result, state, events, log, emit, ret, lift,
    get_self, returned_or.
  destruct (initialize_sensors sc H s) as [[r s1] t1]. simpl. intros ->.
  cbn [monitor tick].
  destruct (camera (monitor s1)); [destruct (camera_stop H)|]; simpl;
    by rewrite <- ?app_assoc.
Qed.

Lemma main_started_run n s :
  result (initialize_sensors sc H s) = Ok tt →
  main E sc H n s =
    let o := initialize_sensors sc H s in
    (Ok tt, state (run_monitoring_loop E n (state o)),
     (events o ++ events (run_monitoring_loop E n (state o)))%list).
Proof.
  intros Hok. cbn zeta. unfold main.
  assert (Hloop : ∀ s1, result (run_monitoring_loop E n s1) = Ok tt).
  { intros s1. unfold run_monitoring_loop, log.
    rewrite (bind_Ok_run (emit _) _ s1 tt eq_refl).
    apply loop_from_returns. }
  specialize (Hloop (state (initialize_sensors sc H s))).
  unfold bind, try_except, ret, result, state, events in *.
  destruct (initialize_sensors sc H s) as [[r s1] t1]. simpl in *. subst r.
  destruct (run_monitoring_loop E n s1) as [[r2 s2] t2]. simpl in *. subst r2.
  by rewrite !app_nil_r.
Qed.

(** X16: when start-up raises, [main] never enters the loop, for any number
    of iterations it would have run.  After the events of the start-up it
    logs the fatal error, then the end of the shutdown, unless
    [camera.stop()] raised, in which case that exception leaves [main] and
    the last line is missing.  Nothing is sent or stored. *)
Theorem failed_start_up_never_monitors n s e :
  result (initialize_sensors sc H s) = Raise e →
  let o := main E sc H n s in
  (∃ rest,
     events o = (events (initialize_sensors sc H s)
                 ++ fatal_error e :: rest)%list ∧
     match result o with
     | Ok _ => rest = [shutdown_complete]
     | Raise e' => rest = [] ∧ camera_stop H = Some e'
     end) ∧
  attempts (events o) = [] ∧
  files (state o) = files s ∧
  sensor_buffer (monitor (state o)) = sensor_buffer (monitor s).
Proof.
  intros Hfail. cbn zeta. rewrite (main_failed_run _ _ _ Hfail). cbn zeta.
  destruct (initialize_sensors_frame s) as (Hbuf & Hfiles & Hatt & _).
  assert (Hquiet : ∀ tail, attempts tail = [] →
            attempts (events (initialize_sensors sc H s) ++ tail) = []).
  { intros tail Htail. unfold attempts in *. by rewrite omap_app, Hatt, Htail. }
  destruct (camera _); [destruct (camera_stop H) as [e'|]|];
    cbn [result state events fst snd monitor files tick];
    (split_and!; [eexists; split; [reflexivity|done]
                 | by apply Hquiet | done | done]).
Qed.

(** X17: with the temperature sensor disabled in the configuration, no
    reading that [main] buffers has a temperature or a humidity, whether
    start-up succeeds or not and however long the loop runs. *)
Theorem disabled_dht_is_never_reported n s :
  temperature_enabled sc = Some false →
  dht_sensor (monitor s) = false →
  Forall without_dht (sensor_buffer (monitor s)) →
  Forall without_dht (sensor_buffer (monitor (state (main E sc H n s)))).
Proof.
  intros Hoff Hnone Hall.
  destruct (initialize_sensors_frame s) as (Hbuf & _ & _ & Hdht).
  specialize (Hdht Hoff).
  destruct (result (initialize_sensors sc H s)) as [[]|e] eqn:Hr.
  - rewrite (main_started_run _ _ Hr). cbn [state fst snd].
    apply run_monitoring_loop_buffer_invariant.
    + intros m W t (_ & _ & _ & _ & Hm & _). apply snapshot_without_dht.
      congruence.
    + by rewrite Hbuf.
  - rewrite (main_failed_run _ _ _ Hr). cbn zeta.
    destruct (camera _); [destruct (camera_stop H)|];
      cbn [state fst snd monitor tick]; by rewrite Hbuf.
Qed.

End StartupProofs.

(* ===================================================================== *)
(** * Concrete runs *)
(* ===================================================================== *)

(** The payload of a reading without any priority field: 32 bytes. *)
Example compress_reading_without_fields :
  @compress_sensor_data example_lib [("hive_id", VStr "hive_001")]
    = "{" ++ dquote ++ "t" ++ dquote ++ ": 0, " ++
      dquote ++ "h" ++ dquote ++ ": 0, " ++
      dquote ++ "w" ++ dquote ++ ": 0, " ++
      dquote ++ "b" ++ dquote ++ ": 0}".
Proof. vm_compute. reflexivity. Qed.

(** The snapshot on hardware whose load cell fails and whose DHT22 has no
    humidity: the two keys of the DHT22 and the weight are absent, the rest
    is there. *)
Example read_sensors_on_example_sensors :
  result (@read_sensors example_lib (example_env None (Ok 200) None)
            example_sensors (example_state [] ∅))
    = Ok [ ("timestamp", VStr "0"); ("hive_id", VStr "hive_001");
           ("internal_temperature_c", VFloat 34.5);
           ("sound_level_db", VFloat 52.5);
           ("dominant_frequency_hz", VFloat 250);
           ("activity_level", VStr "medium");
           ("bee_count", VInt 120) ].
Proof. vm_compute. reflexivity. Qed.

(** C1, as the claim states it, fails: no gateway is in range, the endpoint
    answers 503 and the disk is full.  After the flush the reading is
    nowhere: it was not delivered, no file holds it and the buffer is
    empty.  The log records a storage error and then, as its last word on
    the reading, that the data was stored locally; nothing records a
    discard. *)
Lemma lost_reading_is_reported_stored :
  let E := example_env (Some radio_down) (Ok 503) (Some disk_full) in
  let s := example_state [newer_reading] ∅ in
  let o := @flush_buffer example_lib E 300000000 s in
  sensor_buffer (monitor (state o)) = [] ∧
  events o
    = [ EvLoraSend (@compress_sensor_data example_lib newer_reading)
                   (Some radio_down);
        EvLog ERROR "LoRaWAN transmission failed: no gateway in range";
        EvHttpPost "https://api.urbanbees.ai/api/v1/sensor-data"
                   newer_reading (Ok 503);
        EvFileAppend "local_data_0.json"
                     (@json_dumps example_lib newer_reading ++ newline)
                     (Some disk_full);
        EvLog ERROR "Local storage failed: No space left on device";
        EvLog WARNING "💾 Data stored locally - transmission failed" ] ∧
  ¬ @delivered example_lib newer_reading (events o) ∧
  files (state o) = ∅.
Proof.
  cbn zeta.
  assert (Hrun :
    events (@flush_buffer example_lib
              (example_env (Some radio_down) (Ok 503) (Some disk_full))
              300000000 (example_state [newer_reading] ∅))
      = [ EvLoraSend (@compress_sensor_data example_lib newer_reading)
                     (Some radio_down);
          EvLog ERROR "LoRaWAN transmission failed: no gateway in range";
          EvHttpPost "https://api.urbanbees.ai/api/v1/sensor-data"
                     newer_reading (Ok 503);
          EvFileAppend "local_data_0.json"
                       (@json_dumps example_lib newer_reading ++ newline)
                       (Some disk_full);
          EvLog ERROR "Local storage failed: No space left on device";
          EvLog WARNING "💾 Data stored locally - transmission failed" ])
    by (vm_compute; reflexivity).
  split_and!.
  - vm_compute. reflexivity.
  - exact Hrun.
  - rewrite Hrun. unfold delivered. intros [Hin|[url Hin]];
      repeat (apply elem_of_cons in Hin as [Hin|Hin]; [discriminate Hin|]);
      by apply not_elem_of_nil in Hin.
  - vm_compute. reflexivity.
Qed.

(** C2, on a run: the radio raises, the endpoint answers 200, and nothing
    is attempted after that. *)
Lemma transmit_data_priority_order_witness :
  let E := example_env (Some radio_down) (Ok 200) None in
  let attempt := EvHttpPost "https://api.urbanbees.ai/api/v1/sensor-data"
                            newer_reading (Ok 200) in
  let pre := [ EvLoraSend (@compress_sensor_data example_lib newer_reading)
                          (Some radio_down);
               EvLog ERROR "LoRaWAN transmission failed: no gateway in range" ] in
  let post := [ EvLog INFO "📶 Data transmitted via WiFi" ] in
  events (@transmit_data example_lib E newer_reading (example_state [] ∅))
    = (pre ++ attempt :: post)%list ∧
  succeeded attempt = true ∧
  attempts post = [].
Proof.
  cbn zeta.
  assert (Hrun :
    events (@transmit_data example_lib
              (example_env (Some radio_down) (Ok 200) None)
              newer_reading (example_state [] ∅))
      = ([ EvLoraSend (@compress_sensor_data example_lib newer_reading)
                      (Some radio_down);
           EvLog ERROR "LoRaWAN transmission failed: no gateway in range" ] ++
         EvHttpPost "https://api.urbanbees.ai/api/v1/sensor-data"
                    newer_reading (Ok 200)
         :: [ EvLog INFO "📶 Data transmitted via WiFi" ])%list)
    by (vm_compute; reflexivity).
  split; [exact Hrun|]. split; [reflexivity|].
  exact (proj2 (@transmit_data_priority_order example_lib _ _ _)
           _ _ _ Hrun eq_refl).
Defined.

(** C3, as the claim states it, fails: the day file holds a reading that
    was never delivered, the endpoint answers 200 to everything, and the
    flush transmits the newer reading of the buffer alone; the older reading
    is not sent and stays in the file. *)
Lemma flush_leaves_older_spool_entry_unsent :
  let E := example_env (Some radio_down) (Ok 200) None in
  let s := example_state [newer_reading] spool_with_older_reading in
  let o := @flush_buffer example_lib E 300000000 s in
  files s !!! "local_data_0.json"
    = [@json_dumps example_lib older_reading ++ newline] ∧
  events o
    = [ EvLoraSend (@compress_sensor_data example_lib newer_reading)
                   (Some radio_down);
        EvLog ERROR "LoRaWAN transmission failed: no gateway in range";
        EvHttpPost "https://api.urbanbees.ai/api/v1/sensor-data"
                   newer_reading (Ok 200);
        EvLog INFO "📶 Data transmitted via WiFi" ] ∧
  ¬ Exists (@about example_lib older_reading)
      (filter (λ ev, is_Some (attempt_of ev)) (events o)) ∧
  files (state o) !!! "local_data_0.json"
    = [@json_dumps example_lib older_reading ++ newline].
Proof.
  cbn zeta. split_and!; try (vm_compute; reflexivity).
  vm_compute. intros H.
  repeat match goal with
         | H : Exists _ _ |- _ => inversion H; clear H; subst
         end; discriminate.
Qed.

(** C4, as the claim states it, fails: a payload of 32 bytes, over a
    ceiling of 11 bytes, gets the same answer [False] when the radio refuses
    it for its size as when no gateway is in range, and the answer [True]
    when the driver takes it. *)
Lemma oversized_payload_not_distinguished :
  let data := [("hive_id", VStr "hive_001")] in
  let s := example_state [] ∅ in
  let attempt radio :=
    result (@transmit_via_lora example_lib
              (example_env radio (Ok 200) None) data s) in
  (11 < String.length (@compress_sensor_data example_lib data))%nat ∧
  attempt (Some radio_too_large) = Ok false ∧
  attempt (Some radio_down) = Ok false ∧
  attempt None = Ok true.
Proof. cbn zeta. split_and!; vm_compute; first [lia | reflexivity]. Qed.

(** C4, on a run: the radio refuses the payload for its size, and the
    reading goes on to the HTTP channel. *)
Lemma narrowband_attempt_is_boolean_witness :
  let E := example_env (Some radio_too_large) (Ok 200) None in
  let s := example_state [] ∅ in
  let payload := @compress_sensor_data example_lib newer_reading in
  lora (monitor s) = true ∧
  @transmit_via_lora example_lib E newer_reading s
    = (Ok false, tick (tick s),
       [ EvLoraSend payload (Some radio_too_large);
         EvLog ERROR ("LoRaWAN transmission failed: "
                      ++ exn_str radio_too_large) ]) ∧
  (attempts (events (@transmit_data example_lib E newer_reading s))
     = [Narrowband; IPBased] ∨
   attempts (events (@transmit_data example_lib E newer_reading s))
     = [Narrowband; IPBased; LocalFile]).
Proof.
  cbn zeta.
  pose proof (@narrowband_attempt_is_boolean example_lib
                (example_env (Some radio_too_large) (Ok 200) None)
                newer_reading (example_state [] ∅) eq_refl) as [Hrun Hnext].
  split; [reflexivity|]. split; [exact Hrun|].
  exact (Hnext _ radio_too_large eq_refl eq_refl eq_refl eq_refl).
Defined.


(** C6, on two readings that differ in the order of their keys. *)
Lemma encoding_deterministic_witness :
  let d1 := [("bee_count", VInt 95); ("weight_kg", VInt 40)] in
  let d2 := [("weight_kg", VInt 40); ("bee_count", VInt 95)] in
  dict_equal d1 d2 ∧
  @compress_sensor_data example_lib d1 = @compress_sensor_data example_lib d2.
Proof.
  cbn zeta.
  assert (Heq : dict_equal [("bee_count", VInt 95); ("weight_kg", VInt 40)]
                           [("weight_kg", VInt 40); ("bee_count", VInt 95)]).
  { intros k. simpl. repeat case_decide; simplify_eq; reflexivity. }
  split; [exact Heq|]. exact (@encoding_deterministic example_lib _ _ Heq).
Defined.


(** C8, on a run: the configuration has no [interval_minutes], the body of
    the iteration raises [KeyError], and the loop goes on. *)
Lemma monitoring_loop_survives_errors_witness :
  let E := example_env None (Ok 200) None in
  let s := {| monitor := monitor_without_interval; clock := 0%nat;
              files := ∅ |} in
  result (@iteration_body example_lib E 0 s)
    = Raise (KeyError "interval_minutes") ∧
  events (@loop_iteration example_lib E 0 s)
    = (events (@iteration_body example_lib E 0 s) ++
       [ EvLog ERROR ("Monitoring loop error: "
                      ++ exn_str (KeyError "interval_minutes"));
         EvSleep 60000 ])%list ∧
  result (@run_monitoring_loop example_lib E 3 s) = Ok tt.
Proof.
  cbn zeta.
  assert (Hbody :
    result (@iteration_body example_lib (example_env None (Ok 200) None) 0
              {| monitor := monitor_without_interval; clock := 0%nat;
                 files := ∅ |})
      = Raise (KeyError "interval_minutes")) by (vm_compute; reflexivity).
  pose proof (@monitoring_loop_survives_errors example_lib
                (example_env None (Ok 200) None) 0%nat
                {| monitor := monitor_without_interval; clock := 0%nat;
                   files := ∅ |}) as (_ & Hlog & _ & Hloop).
  split; [exact Hbody|]. split; [exact (Hlog _ Hbody)|]. exact (Hloop 3%nat).
Defined.

(** C9, as the claim states it, fails for the three fields that are floats:
    a temperature of zero is printed 0.0, a missing one 0, and the two
    payloads differ. *)
Lemma float_zero_is_told_apart_from_missing :
  let zero := [("hive_id", VStr "hive_001"); ("temperature_c", VFloat 0)] in
  let missing := [("hive_id", VStr "hive_001")] in
  @compress_sensor_data zero_printing_lib zero
    = "{" ++ dquote ++ "t" ++ dquote ++ ": 0.0, " ++
      dquote ++ "h" ++ dquote ++ ": 0, " ++
      dquote ++ "w" ++ dquote ++ ": 0, " ++
      dquote ++ "b" ++ dquote ++ ": 0}" ∧
  @compress_sensor_data zero_printing_lib missing
    = "{" ++ dquote ++ "t" ++ dquote ++ ": 0, " ++
      dquote ++ "h" ++ dquote ++ ": 0, " ++
      dquote ++ "w" ++ dquote ++ ": 0, " ++
      dquote ++ "b" ++ dquote ++ ": 0}" ∧
  @compress_sensor_data zero_printing_lib zero
    ≠ @compress_sensor_data zero_printing_lib missing.
Proof. cbn zeta. split_and!; vm_compute; first [reflexivity | discriminate]. Qed.

(** C9, on a reading without a bee count: its payload is the one of a count
    of zero, and not the one of a count of seven. *)
Lemma reduced_encoding_zero_for_missing_witness :
  let data := [("hive_id", VStr "hive_001"); ("weight_kg", VInt 40)] in
  ("bee_count", "b") ∈ priority_fields ∧
  dict_get data "bee_count" = None ∧
  dict_get (essential_data data) "b" = Some (VInt 0) ∧
  @compress_sensor_data example_lib data
    = @compress_sensor_data example_lib (dict_set data "bee_count" (VInt 0)) ∧
  @compress_sensor_data example_lib (dict_set data "bee_count" (VInt 7))
    ≠ @compress_sensor_data example_lib data.
Proof.
  cbn zeta.
  assert (Hin : ("bee_count", "b") ∈ priority_fields)
    by (unfold priority_fields; solve_elem).
  pose proof (@reduced_encoding_zero_for_missing example_lib
                [("hive_id", VStr "hive_001"); ("weight_kg", VInt 40)]
                "bee_count" "b" Hin eq_refl) as (Hzero & Hsame & Hother).
  split; [exact Hin|]. split; [reflexivity|]. split; [exact Hzero|].
  split; [exact Hsame|]. apply Hother. vm_compute. discriminate.
Defined.

(** ** Runs of the further properties *)

(** X2, on a run: the configuration has no [transmission] section. *)
Lemma transmission_section_missing_witness :
  let E := example_env None (Ok 200) None in
  let s := state_at (monitor_without_radio config_without_transmission) 0 in
  transmission (config (monitor s)) = None ∧
  events (@transmit_data example_lib E newer_reading s)
    = EvLog ERROR ("Data transmission failed: "
                   ++ exn_str (KeyError "transmission"))
      :: events (@store_locally example_lib E newer_reading (tick s)) ∧
  attempts (events (@transmit_data example_lib E newer_reading s))
    = [LocalFile].
Proof.
  cbn zeta. split; [reflexivity|].
  exact (@transmission_section_missing example_lib
           (example_env None (Ok 200) None) newer_reading
           (state_at (monitor_without_radio config_without_transmission) 0)
           eq_refl).
Defined.

(** X3, on a run: the endpoint answers 503. *)
Lemma http_status_other_than_200_falls_through_witness :
  let E := example_env None (Ok 503) None in
  let s := state_at (monitor_without_radio default_config) 0 in
  events (@transmit_data example_lib E newer_reading s)
    = EvHttpPost "https://api.urbanbees.ai/api/v1/sensor-data" newer_reading
                 (Ok 503)
      :: (events (@store_locally example_lib E newer_reading (tick s)) ++
          [EvLog WARNING "💾 Data stored locally - transmission failed"])%list.
Proof.
  cbn zeta.
  refine (@http_status_other_than_200_falls_through example_lib
            (example_env None (Ok 503) None) newer_reading
            (state_at (monitor_without_radio default_config) 0)
            _ 503 eq_refl eq_refl eq_refl eq_refl _).
  discriminate.
Defined.

(** X4, on a run: the disk is full and the fallback is forbidden. *)
Lemma stored_locally_warning_despite_failure_witness :
  let E := example_env None (Ok 200) (Some disk_full) in
  let s := state_at (monitor_without_radio config_without_fallback) 0 in
  events (@transmit_data example_lib E newer_reading s)
    = [ EvFileAppend (@local_data_path example_lib (now E (clock s)))
                     (@json_dumps example_lib newer_reading ++ newline)
                     (Some disk_full);
        EvLog ERROR ("Local storage failed: " ++ exn_str disk_full);
        EvLog WARNING "💾 Data stored locally - transmission failed" ] ∧
  files (state (@transmit_data example_lib E newer_reading s)) = files s.
Proof.
  cbn zeta.
  refine (@stored_locally_warning_despite_failure example_lib
            (example_env None (Ok 200) (Some disk_full)) newer_reading
            (state_at (monitor_without_radio config_without_fallback) 0)
            _ disk_full eq_refl eq_refl eq_refl _).
  intros n path text. reflexivity.
Defined.

(** X5, on a run: two readings are buffered while nothing is delivered. *)
Lemma undeliverable_buffer_is_spooled_in_order_witness :
  let s := example_state [older_reading; newer_reading] ∅ in
  let o := @flush_buffer example_lib offline_env 0 s in
  files (state o) !!! day_path "0"
    = (files s !!! day_path "0" ++
       map (@spool_line example_lib) [older_reading; newer_reading])%list ∧
  ∀ other, other ≠ day_path "0" →
           files (state o) !!! other = files s !!! other.
Proof.
  cbn zeta.
  refine (@undeliverable_buffer_is_spooled_in_order example_lib offline_env 0
            (example_state [older_reading; newer_reading] ∅) "0" _ _ _ _).
  - intros n payload. discriminate.
  - intros n url body. discriminate.
  - intros n path text. reflexivity.
  - intros n. vm_compute. reflexivity.
Defined.

(** X8, on a run: the first iteration, seconds after the start. *)
Lemma iteration_below_interval_only_buffers_witness :
  let E := example_env None (Ok 200) None in
  let s := example_state [] ∅ in
  let o := @loop_iteration example_lib E 0 s in
  within_float_precision
    (@check_time example_lib E 0 s - last_transmission (monitor s)) ∧
  @check_time example_lib E 0 s - last_transmission (monitor s)
    < microseconds (5 * 60) ∧
  sensor_buffer (monitor (state o))
    = (sensor_buffer (monitor s)
       ++ [@snapshot example_lib (monitor s) (sensors E 0)
             (now E (clock s))])%list ∧
  last_transmission (monitor (state o)) = last_transmission (monitor s) ∧
  attempts (events o) = [] ∧
  files (state o) = files s.
Proof.
  cbn zeta.
  assert (Hbelow :
    @check_time example_lib (example_env None (Ok 200) None) 0
      (example_state [] ∅)
    - last_transmission (monitor (example_state [] ∅))
    < microseconds (5 * 60)) by (vm_compute; reflexivity).
  assert (Hexact :
    within_float_precision
      (@check_time example_lib (example_env None (Ok 200) None) 0
         (example_state [] ∅)
       - last_transmission (monitor (example_state [] ∅))))
    by (vm_compute; discriminate).
  split; [exact Hexact|]. split; [exact Hbelow|].
  exact (@iteration_below_interval_only_buffers example_lib
           (example_env None (Ok 200) None) 0%nat (example_state [] ∅)
           _ 5 eq_refl eq_refl Hexact Hbelow).
Defined.

(** X9, on a run: an iteration 400 seconds after the last transmission,
    with an interval of 300 seconds. *)
Lemma iteration_at_interval_flushes_witness :
  let E := example_env None (Ok 200) None in
  let s := state_at example_monitor 400 in
  let o := @loop_iteration example_lib E 0 s in
  let reading :=
    @snapshot example_lib (monitor s) (sensors E 0) (now E (clock s)) in
  @check_time example_lib E 0 s - last_transmission (monitor s)
    >= microseconds (5 * 60) ∧
  sensor_buffer (monitor (state o)) = [] ∧
  last_transmission (monitor (state o)) = @check_time example_lib E 0 s ∧
  ∃ segs,
    events o = (events (@read_sensors example_lib E (sensors E 0) s) ++
                concat segs ++ [EvSleep 30000])%list ∧
    Forall2 (@accounted example_lib)
            (sensor_buffer (monitor s) ++ [reading])%list segs.
Proof.
  cbn zeta.
  assert (Hdue :
    @check_time example_lib (example_env None (Ok 200) None) 0
      (state_at example_monitor 400)
    - last_transmission (monitor (state_at example_monitor 400))
    >= microseconds (5 * 60)) by (vm_compute; discriminate).
  split; [exact Hdue|].
  exact (@iteration_at_interval_flushes example_lib
           (example_env None (Ok 200) None) 0%nat
           (state_at example_monitor 400) _ 5 eq_refl eq_refl Hdue).
Defined.

(** X10, on a run: three iterations without [interval_minutes]. *)
Lemma loop_without_interval_only_buffers_witness :
  let E := example_env None (Ok 200) None in
  let s := state_at monitor_without_interval 0 in
  let o := @loop_from example_lib E 0 3 s in
  result o = Ok tt ∧
  length (sensor_buffer (monitor (state o))) = 3%nat ∧
  attempts (events o) = [] ∧
  files (state o) = files s.
Proof.
  cbn zeta.
  refine (@loop_without_interval_only_buffers example_lib
            (example_env None (Ok 200) None) 0%nat 3%nat
            (state_at monitor_without_interval 0) _).
  intros tc Htc. injection Htc as <-. reflexivity.
Defined.

(** X12, on a run: the buffer holds a stamped reading at the start. *)
Lemma buffered_readings_are_stamped_witness :
  let E := example_env None (Ok 200) None in
  let s := example_state [older_reading] ∅ in
  Forall (stamped "hive_001") (sensor_buffer (monitor s)) ∧
  Forall (stamped "hive_001")
         (sensor_buffer
            (monitor (state (@run_monitoring_loop example_lib E 2 s)))).
Proof.
  cbn zeta.
  assert (Hstart : Forall (stamped (hive_id (monitor
                             (example_state [older_reading] ∅))))
                          (sensor_buffer (monitor
                             (example_state [older_reading] ∅)))).
  { repeat constructor. by eexists. }
  split; [exact Hstart|].
  exact (@buffered_readings_are_stamped example_lib
           (example_env None (Ok 200) None) 2%nat
           (example_state [older_reading] ∅) Hstart).
Defined.

(** X13, on a run: the constructor of the DHT22 raises, after the camera
    was started. *)
Lemma initialize_sensors_failure_is_logged_witness :
  let o := initialize_sensors default_sensors hardware_without_dht
             fresh_state in
  result o = Raise dht_unplugged ∧
  (∃ pre, events o
          = (pre ++ [EvLog ERROR ("Sensor initialization failed: "
                                  ++ exn_str dht_unplugged)])%list) ∧
  bee_counter_model (monitor (state o)) = None.
Proof.
  cbn zeta.
  assert (Hfail :
    result (initialize_sensors default_sensors hardware_without_dht
              fresh_state) = Raise dht_unplugged) by (vm_compute; reflexivity).
  split; [exact Hfail|].
  exact (initialize_sensors_failure_is_logged default_sensors
           hardware_without_dht fresh_state dht_unplugged Hfail).
Defined.

(** X14, on a run: the defaults on hardware that works. *)
Lemma start_up_creates_the_enabled_drivers_witness :
  let m' := monitor (state (initialize_sensors default_sensors
                              working_hardware fresh_state)) in
  no_drivers (monitor fresh_state) ∧
  result (initialize_sensors default_sensors working_hardware fresh_state)
    = Ok tt ∧
  camera_enabled default_sensors = Some (camera m') ∧
  temperature_enabled default_sensors = Some (dht_sensor m') ∧
  weight_enabled default_sensors = Some (weight_sensor m') ∧
  temp_sensor m' = bool_decide (w1thermsensor_new working_hardware = None) ∧
  (∃ tc, transmission (config (monitor fresh_state)) = Some tc ∧
         lora_enabled tc = Some (lora m')) ∧
  bee_counter_model m' = Some "YOLOv8_bee_counter_v1.tflite" ∧
  config m' = config (monitor fresh_state) ∧
  hive_id m' = hive_id (monitor fresh_state).
Proof.
  cbn zeta.
  assert (Hfresh : no_drivers (monitor fresh_state)) by (repeat split).
  assert (Hok :
    result (initialize_sensors default_sensors working_hardware fresh_state)
      = Ok tt) by (vm_compute; reflexivity).
  split; [exact Hfresh|]. split; [exact Hok|].
  exact (start_up_creates_the_enabled_drivers default_sensors
           working_hardware fresh_state Hfresh Hok).
Defined.

(** X15, on a run: the defaults on hardware without a thermometer. *)
Lemma missing_thermometer_is_tolerated_witness :
  let good := initialize_sensors default_sensors
                (with_thermometer None working_hardware) fresh_state in
  let bad := initialize_sensors default_sensors
               (with_thermometer (Some no_thermometer) working_hardware)
               fresh_state in
  result good = Ok tt ∧
  result bad = Ok tt ∧
  monitor (state bad)
    = set_temp_sensor (temp_sensor (monitor fresh_state))
        (monitor (state good)) ∧
  EvLog WARNING ("Internal temp sensor not available: "
                 ++ exn_str no_thermometer) ∈ events bad.
Proof.
  cbn zeta.
  assert (Hok :
    result (initialize_sensors default_sensors
              (with_thermometer None working_hardware) fresh_state)
      = Ok tt) by (vm_compute; reflexivity).
  split; [exact Hok|].
  exact (missing_thermometer_is_tolerated default_sensors working_hardware
           fresh_state no_thermometer Hok).
Defined.

(** X16, on a run: the constructor of the DHT22 raises, and [main] ends
    with the two log lines whatever the number of iterations asked for. *)
Lemma failed_start_up_never_monitors_witness :
  let E := example_env None (Ok 200) None in
  let start := initialize_sensors default_sensors hardware_without_dht
                 fresh_state in
  let o := @main example_lib E default_sensors hardware_without_dht 5
             fresh_state in
  result start = Raise dht_unplugged ∧
  (∃ rest,
     events o = (events start ++ fatal_error dht_unplugged :: rest)%list ∧
     match result o with
     | Ok _ => rest = [shutdown_complete]
     | Raise e' => rest = [] ∧ camera_stop hardware_without_dht = Some e'
     end) ∧
  attempts (events o) = [] ∧
  files (state o) = files fresh_state ∧
  sensor_buffer (monitor (state o)) = sensor_buffer (monitor fresh_state).
Proof.
  cbn zeta.
  assert (Hfail :
    result (initialize_sensors default_sensors hardware_without_dht
              fresh_state) = Raise dht_unplugged) by (vm_compute; reflexivity).
  split; [exact Hfail|].
  exact (@failed_start_up_never_monitors example_lib
           (example_env None (Ok 200) None) default_sensors
           hardware_without_dht 5%nat fresh_state dht_unplugged Hfail).
Defined.

(** X17, on a run: three iterations after a start-up with the temperature
    sensor disabled. *)
Lemma disabled_dht_is_never_reported_witness :
  let E := example_env None (Ok 200) None in
  temperature_enabled sensors_without_dht = Some false ∧
  dht_sensor (monitor fresh_state) = false ∧
  Forall without_dht
    (sensor_buffer
       (monitor (state (@main example_lib E sensors_without_dht
                          working_hardware 3 fresh_state)))).
Proof.
  cbn zeta. split; [reflexivity|]. split; [reflexivity|].
  exact (@disabled_dht_is_never_reported example_lib
           (example_env None (Ok 200) None) sensors_without_dht
           working_hardware 3%nat fresh_state eq_refl eq_refl
           (Forall_nil_2 _)).
Defined.
